(** * The envd graph compiler ([pkg/lang/ir]) and the shell bootstrap manager
      ([pkg/shell/zsh.go]), embedded in Rocq.

    The Go code builds a BuildKit LLB graph out of a [Graph] value (the
    environment descriptor).  The LLB primitives ([llb.Image], [llb.Scratch],
    [State.Run], [State.File], [llb.Diff], [llb.Merge]) belong to an external
    library; they are embedded as the constructors of a term type that records
    the operations exactly as the code issues them.

    Go's effects are kept explicit:
    - string slices are headers (pointer, length, capacity) over backing
      arrays that live in a heap, so [append] either writes in place or
      reallocates, and a copied [Graph] shares its arrays with the original;
    - a nil-pointer dereference is a panic;
    - the plugin cache collaborator acts on an external world;
    - [logrus] diagnostics are appended to a log. *)

From Stdlib Require Import String Ascii.
From stdpp Require Import list strings.

Local Open Scope string_scope.
Local Open Scope nat_scope.
Local Open Scope list_scope.
Local Open Scope stdpp_scope.

(** ** LLB build states as recorded operations *)

Inductive CacheSharing := CacheMountShared | CacheMountPrivate | CacheMountLocked.

(** [run.AddMount(target, source, llb.AsPersistentCacheDir(id, sharing))] *)
Record Mount (S : Type) := mkMount {
  mount_target : string;
  mount_source : S;
  mount_cache_id : string;
  mount_sharing : CacheSharing;
}.
Arguments mkMount {S} _ _ _ _.
Arguments mount_target {S} _.
Arguments mount_source {S} _.
Arguments mount_cache_id {S} _.
Arguments mount_sharing {S} _.

(** The file actions the compiler uses: [llb.Copy] (with
    [CopyInfo.CreateDestPath]), [llb.Mkdir] (with [llb.WithParents]) and
    [llb.Mkfile]. *)
Inductive FileAction (S : Type) :=
| Copy (src : S) (from to : string) (createDestPath : bool)
| Mkdir (path : string) (mode : N) (withParents : bool)
| Mkfile (path : string) (mode : N) (content : string).
Arguments Copy {S} _ _ _ _.
Arguments Mkdir {S} _ _ _.
Arguments Mkfile {S} _ _ _.

#[warnings="-register-all"]
Inductive State :=
| Image (ref : string)
| Scratch
| Local (name : string)
| Run (root : State) (shlex : string) (mounts : list (Mount State))
| File (base : State) (action : FileAction State)
| Diff (lower upper : State)
| Merge (inputs : list State).

(** ** Errors ([error] values, [errors.Wrap]) *)

Inductive error :=
| ErrorString (msg : string)
| Wrap (cause : error) (msg : string).

(** [err.Error()]: a wrapped error prints its context, a colon, its cause. *)
Fixpoint Error (e : error) : string :=
  match e with
  | ErrorString m => m
  | Wrap c m => m +:+ ": " +:+ Error c
  end.

(** [errors.UnwrapAll]: the innermost cause. *)
Fixpoint UnwrapAll (e : error) : error :=
  match e with
  | ErrorString m => ErrorString m
  | Wrap c _ => UnwrapAll c
  end.

(** The context messages added around the cause, outermost first. *)
Fixpoint contexts (e : error) : list string :=
  match e with
  | ErrorString _ => []
  | Wrap c m => m :: contexts c
  end.

(** A Go [(T, error)] return. *)
Inductive result (A : Type) :=
| Ok (a : A)
| Err (e : error).
Arguments Ok {A} _.
Arguments Err {A} _.

(** ** Go string slices over a heap of backing arrays *)

Record Slice := mkSlice {
  ptr : nat;   (* address of the backing array *)
  len : nat;
  cap : nat;
}.

Abbreviation Heap := (list (list string)).

Definition backing (h : Heap) (s : Slice) : list string :=
  default [] (h !! ptr s).

(** What [range s] yields and what indexing below [len s] sees. *)
Definition elems (h : Heap) (s : Slice) : list string :=
  take (len s) (backing h s).

(** A slice header is consistent with the heap: its array is allocated and
    has exactly [cap] cells, of which the first [len] are in use. *)
Definition slice_ok (h : Heap) (s : Slice) : Prop :=
  ptr s < length h /\ length (backing h s) = cap s /\ len s <= cap s.

(** A log line of [logrus.WithField(key, value).Debug(msg)]. *)
Record LogEntry := mkLog {
  log_field : string;
  log_value : string;
  log_msg : string;
}.

(** The process state the compiler runs in. *)
Record Proc (World : Type) := mkProc {
  heap : Heap;
  world : World;
  diag : list LogEntry;
}.
Arguments mkProc {World} _ _ _.
Arguments heap {World} _.
Arguments world {World} _.
Arguments diag {World} _.

(** Outcome of a Go call: it returns, or the goroutine panics. *)
Inductive Res (A : Type) :=
| Val (a : A)
| Panic (msg : string).
Arguments Val {A} _.
Arguments Panic {A} _.

Definition M (World A : Type) : Type := Proc World -> Res A * Proc World.

Definition ret {World A} (a : A) : M World A := fun st => (Val a, st).

Definition bind {World A B} (m : M World A) (f : A -> M World B) : M World B :=
  fun st =>
    match m st with
    | (Val a, st') => f a st'
    | (Panic msg, st') => (Panic msg, st')
    end.

Definition panic {World A} (msg : string) : M World A :=
  fun st => (Panic msg, st).

Declare Scope go_scope.
Delimit Scope go_scope with go.
Notation "x <- c1 ;; c2" := (bind c1 (fun x => c2))
  (at level 100, c1 at next level, right associativity) : go_scope.
Local Open Scope go_scope.

Definition nil_deref : string :=
  "runtime error: invalid memory address or nil pointer dereference".

(** [*p] for a [*string]. *)
Definition deref {World} (p : option string) : M World string :=
  match p with
  | Some v => ret v
  | None => panic nil_deref
  end.

(** Allocation of a slice literal: a fresh array exactly as long as the
    literal. *)
Definition alloc {World} (xs : list string) : M World Slice :=
  fun st =>
    (Val (mkSlice (length (heap st)) (length xs) (length xs)),
     mkProc (heap st ++ [xs]) (world st) (diag st)).

(** Reading a slice ([range]). *)
Definition read {World} (s : Slice) : M World (list string) :=
  fun st => (Val (elems (heap st) s), st).

(** [append(s, xs...)].  With room left in the backing array the new
    elements are written in place, behind the first [len s] cells, and the
    result shares the array.  Otherwise a new array is allocated, the
    elements are copied and the rest is zeroed.  Go promises only that the
    new array is large enough; [growcap old needed] is the runtime's growth
    policy. *)
Definition append_at (growcap : nat -> nat -> nat)
    (s : Slice) (xs : list string) (h : Heap) : Slice * Heap :=
  let needed := len s + length xs in
  if needed <=? cap s then
    let arr := backing h s in
    let arr' := take (len s) arr ++ xs ++ drop needed arr in
    (mkSlice (ptr s) needed (cap s), <[ptr s := arr']> h)
  else
    let newcap := Nat.max needed (growcap (cap s) needed) in
    let arr' := elems h s ++ xs ++ replicate (newcap - needed) EmptyString in
    (mkSlice (length h) needed newcap, h ++ [arr']).

Definition append {World} (growcap : nat -> nat -> nat)
    (s : Slice) (xs : list string) : M World Slice :=
  fun st =>
    let '(s', h') := append_at growcap s xs (heap st) in
    (Val s', mkProc h' (world st) (diag st)).

Definition log {World} (e : LogEntry) : M World unit :=
  fun st => (Val tt, mkProc (heap st) (world st) (diag st ++ [e])).

(** ** The environment descriptor *)

(** The [Graph] struct, with the fields the compiler reads and writes.
    [CUDA], [CUDNN], [UbuntuAPTSource] and [PyPIMirror] are [*string]
    ([None] is nil).  [VSCodePlugins] and [Exec] are only ever read. *)
Record Graph (Plugin : Type) := mkGraph {
  OS : string;
  Language : string;
  CUDA : option string;
  CUDNN : option string;
  BuiltinSystemPackages : Slice;
  PyPIPackages : Slice;
  SystemPackages : Slice;
  VSCodePlugins : list Plugin;
  UbuntuAPTSource : option string;
  PyPIMirror : option string;
  Exec : list State;
}.
Arguments mkGraph {Plugin} _ _ _ _ _ _ _ _ _ _ _.
Arguments OS {Plugin} _.
Arguments Language {Plugin} _.
Arguments CUDA {Plugin} _.
Arguments CUDNN {Plugin} _.
Arguments BuiltinSystemPackages {Plugin} _.
Arguments PyPIPackages {Plugin} _.
Arguments SystemPackages {Plugin} _.
Arguments VSCodePlugins {Plugin} _.
Arguments UbuntuAPTSource {Plugin} _.
Arguments PyPIMirror {Plugin} _.
Arguments Exec {Plugin} _.

(** [g.BuiltinSystemPackages = b] *)
Definition set_BuiltinSystemPackages {Plugin} (b : Slice) (g : Graph Plugin)
  : Graph Plugin :=
  mkGraph (OS g) (Language g) (CUDA g) (CUDNN g) b (PyPIPackages g)
          (SystemPackages g) (VSCodePlugins g) (UbuntuAPTSource g)
          (PyPIMirror g) (Exec g).

(** What the compiler takes from outside [ir]: package constants declared in
    other files, process-wide settings, library functions and the plugin
    cache client of [pkg/vscode]. *)
Record Runtime (Plugin World : Type) := mkRuntime {
  osDefault : string;
  languageDefault : string;
  aptSourceFilePath : string;
  pypiMirrorFilePath : string;
  (* fmt.Sprintf(pypiConfigTemplate, mirror) *)
  pypiConfig : string -> string;
  (* viper.GetString(flag.FlagSSHImage) *)
  sshImage : string;
  FlagCacheDir : string;
  filepath_Dir : string -> string;
  (* capacity chosen by the runtime when append reallocates *)
  growcap : nat -> nat -> nat;
  (* p.String() *)
  plugin_String : Plugin -> string;
  (* vscode.NewClient().DownloadOrCache(p) *)
  vscode_DownloadOrCache : Plugin -> World -> option error * World;
  (* vscode.NewClient().PluginPath(p) *)
  vscode_PluginPath : Plugin -> string;
}.
Arguments osDefault {Plugin World} _.
Arguments languageDefault {Plugin World} _.
Arguments aptSourceFilePath {Plugin World} _.
Arguments pypiMirrorFilePath {Plugin World} _.
Arguments pypiConfig {Plugin World} _ _.
Arguments sshImage {Plugin World} _.
Arguments FlagCacheDir {Plugin World} _.
Arguments filepath_Dir {Plugin World} _ _.
Arguments growcap {Plugin World} _ _ _.
Arguments plugin_String {Plugin World} _ _.
Arguments vscode_DownloadOrCache {Plugin World} _ _ _.
Arguments vscode_PluginPath {Plugin World} _ _.

(** The double quote the Go source writes as an escape inside its string
    literals. *)
Definition dquote : string := String (ascii_of_nat 34) EmptyString.

(** [strings.Builder]: the prefix, then [" " + pkg] for every package in
    range order. *)
Definition write_packages (prefix : string) (pkgs : list string) : string :=
  fold_left (fun sb pkg => sb +:+ (" " +:+ pkg)) pkgs prefix.

(** [llb.AsPersistentCacheDir("/"+dir, llb.CacheMountShared)] over
    [llb.Scratch()], mounted at [dir]. *)
Definition cache_mount (dir : string) : Mount State :=
  mkMount dir Scratch ("/" +:+ dir) CacheMountShared.

Section Compiler.
Context {Plugin World : Type}.
Variable rt : Runtime Plugin World.

Abbreviation Go := (M World).
Abbreviation Graph := (Graph Plugin).

(** [NewGraph()] *)
Definition NewGraph : Go Graph :=
  b <- alloc ["curl"; "openssh-client"];;
  p <- alloc [];;
  s <- alloc [];;
  ret (mkGraph (osDefault rt) (languageDefault rt) None None
               b p s [] None None []).

(** [GPUEnabled()], on the graph [DefaultGraph] points to. *)
Definition GPUEnabled (DefaultGraph : Graph) : bool :=
  match CUDA DefaultGraph with Some _ => true | None => false end.

(** [(g *Graph) compileCUDAPackages()].  The receiver is a pointer: the
    updated struct is returned next to the state. *)
Definition compileCUDAPackages (g : Graph) : Go (State * Graph) :=
  cuda <- deref (CUDA g);;
  cudnn <- deref (CUDNN g);;
  let root := Image ("nvidia/cuda:" +:+ cuda +:+ ".0-cudnn" +:+ cudnn
                       +:+ "-devel-" +:+ OS g) in
  b <- append (growcap rt) (BuiltinSystemPackages g)
         [Language g; Language g +:+ "-pip"];;
  ret (root, set_BuiltinSystemPackages b g).

(** [(g *Graph) compileBase()] *)
Definition compileBase (g : Graph) : Go (State * Graph) :=
  match CUDA g, CUDNN g with
  | None, None => ret (Image "docker.io/library/python:3.8", g)
  | _, _ => compileCUDAPackages g
  end.

(** [(g Graph) compilePyPIPackages(root)] *)
Definition compilePyPIPackages (g : Graph) (root : State) : Go State :=
  if len (PyPIPackages g) =? 0 then ret root
  else
    pkgs <- read (PyPIPackages g);;
    let sb := write_packages "pip install" pkgs in
    let cacheDir := "/root/.cache/pip" in
    ret (Run root sb [cache_mount cacheDir]).

(** [(g Graph) compileBuiltinSystemPackages(root)] *)
Definition compileBuiltinSystemPackages (g : Graph) (root : State)
  : Go State :=
  if len (BuiltinSystemPackages g) =? 0 then ret root
  else
    pkgs <- read (BuiltinSystemPackages g);;
    let sb :=
      write_packages
        ("sh -c " +:+ dquote +:+
         "apt-get update && apt-get install -y --no-install-recommends")
        pkgs +:+ dquote in
    let cacheDir := "/var/cache/apt" in
    let cacheLibDir := "/var/lib/apt" in
    ret (Run root sb [cache_mount cacheDir; cache_mount cacheLibDir]).

(** [(g Graph) compileSystemPackages(root)] *)
Definition compileSystemPackages (g : Graph) (root : State) : Go State :=
  if len (SystemPackages g) =? 0 then ret root
  else
    pkgs <- read (SystemPackages g);;
    let sb := write_packages "apt install" pkgs in
    let cacheDir := "/var/cache/apt" in
    let cacheLibDir := "/var/lib/apt" in
    ret (Run root sb [cache_mount cacheDir; cache_mount cacheLibDir]).

(** [(g Graph) copyMidiSSHServer()] *)
Definition copyMidiSSHServer (g : Graph) : Go State :=
  ret (File Scratch
         (Copy (Image (sshImage rt))
               "usr/bin/midi-ssh" "/var/midi/bin/midi-ssh" true)).

Definition DownloadOrCache (p : Plugin) : Go (option error) :=
  fun st =>
    let '(r, w) := vscode_DownloadOrCache rt p (world st) in
    (Val r, mkProc (heap st) w (diag st)).

(** The layer of one plugin. *)
Definition extension (p : Plugin) : State :=
  File Scratch
    (Copy (Local (FlagCacheDir rt)) (vscode_PluginPath rt p)
          ("/root/.vscode-server/extensions/" +:+ plugin_String rt p) true).

(** The loop of [compileVSCode] over the remaining plugins, with the
    [inputs] gathered so far. *)
Fixpoint compileVSCode_loop (ps : list Plugin) (inputs : list State)
  : Go (result (list State)) :=
  match ps with
  | [] => ret (Ok inputs)
  | p :: ps' =>
      err <- DownloadOrCache p;;
      match err with
      | Some e => ret (Err e)
      | None => compileVSCode_loop ps' (inputs ++ [extension p])
      end
  end.

(** [(g Graph) compileVSCode()]: [(nil, nil)] is [Ok None]. *)
Definition compileVSCode (g : Graph) : Go (result (option State)) :=
  if length (VSCodePlugins g) =? 0 then ret (Ok None)
  else
    r <- compileVSCode_loop (VSCodePlugins g) [];;
    match r with
    | Err e => ret (Err e)
    | Ok inputs => ret (Ok (Some (Merge inputs)))
    end.

(** [(g Graph) compileUbuntuAPT(root)]; 0755 and 0644 are octal. *)
Definition compileUbuntuAPT (g : Graph) (root : State) : Go State :=
  match UbuntuAPTSource g with
  | Some source =>
      _ <- log (mkLog "source" source "using custom APT source");;
      let aptSource :=
        File (File Scratch
                (Mkdir (filepath_Dir rt (aptSourceFilePath rt)) 493%N true))
             (Mkfile (aptSourceFilePath rt) 420%N source) in
      ret (Merge [root; aptSource])
  | None => ret root
  end.

(** [(g Graph) compilePyPIMirror(root)] *)
Definition compilePyPIMirror (g : Graph) (root : State) : Go State :=
  match PyPIMirror g with
  | Some mirror =>
      _ <- log (mkLog "mirror" mirror "using custom PyPI mirror");;
      let content := pypiConfig rt mirror in
      let aptSource :=
        File (File Scratch
                (Mkdir (filepath_Dir rt (pypiMirrorFilePath rt)) 493%N true))
             (Mkfile (pypiMirrorFilePath rt) 420%N content) in
      ret (Merge [root; aptSource])
  | None => ret root
  end.

(** [(g Graph) Compile()], from its second statement on: [g] and [base]
    are what [compileBase] left. *)
Definition Compile_rest (g : Graph) (base : State) : Go (result State) :=
  aptStage <- compileUbuntuAPT g base;;
  builtinSystemStage <- compileBuiltinSystemPackages g aptStage;;
  pypiMirrorStage <- compilePyPIMirror g builtinSystemStage;;
  pypi <- compilePyPIPackages g pypiMirrorStage;;
  let pypiStage := Diff aptStage pypi in
  sys <- compileSystemPackages g aptStage;;
  let systemStage := Diff aptStage sys in
  sshStage <- copyMidiSSHServer g;;
  r <- compileVSCode g;;
  match r with
  | Err err => ret (Err (Wrap err "failed to get vscode plugins"))
  | Ok (Some vscodeStage) =>
      ret (Ok (Merge [aptStage; systemStage; pypiStage; sshStage;
                      vscodeStage]))
  | Ok None =>
      ret (Ok (Merge [aptStage; systemStage; pypiStage; sshStage]))
  end.

(** [(g Graph) Compile()].  The receiver is a value: [g] is the callee's
    own copy of the struct, which [compileBase] updates through [&g]; the
    caller's struct is untouched, the heap behind its slices is shared. *)
Definition Compile (g : Graph) : Go (result State) :=
  bg <- compileBase g;;
  let '(base, g) := bg in
  Compile_rest g base.

End Compiler.

(** ** Reading an assembled graph *)

(** Every command run anywhere in a build state, sources of mounts and of
    copies included, in the order the operations nest. *)
Fixpoint run_cmds (s : State) : list string :=
  match s with
  | Image _ | Scratch | Local _ => []
  | Run r c ms =>
      run_cmds r ++ [c] ++ flat_map (fun m => run_cmds (mount_source m)) ms
  | File b a =>
      run_cmds b ++
      match a with
      | Copy src _ _ _ => run_cmds src
      | Mkdir _ _ _ | Mkfile _ _ _ => []
      end
  | Diff l u => run_cmds l ++ run_cmds u
  | Merge ins => flat_map run_cmds ins
  end.

(** Every file written by [llb.Mkfile] anywhere in a build state: path and
    content. *)
Fixpoint mkfiles (s : State) : list (string * string) :=
  match s with
  | Image _ | Scratch | Local _ => []
  | Run r _ ms =>
      mkfiles r ++ flat_map (fun m => mkfiles (mount_source m)) ms
  | File b a =>
      mkfiles b ++
      match a with
      | Copy src _ _ _ => mkfiles src
      | Mkdir _ _ _ => []
      | Mkfile p _ c => [(p, c)]
      end
  | Diff l u => mkfiles l ++ mkfiles u
  | Merge ins => flat_map mkfiles ins
  end.

(** The list handed to the outermost [llb.Merge]. *)
Definition merge_inputs (s : State) : list State :=
  match s with
  | Merge ins => ins
  | _ => []
  end.

(** ** A concrete runtime *)

Module Demo.

(** Plugins are named by their canonical string; the world is the log of
    download attempts; every plugin can be fetched but [broken]. *)
Definition broken : string := "acme.broken-0.0.1".

Definition download (p : string) (w : list string)
  : option error * list string :=
  (if String.eqb p broken then Some (ErrorString "connection refused")
   else None,
   w ++ [p]).

Definition rt : Runtime string (list string) :=
  mkRuntime string (list string)
    "ubuntu20.04" "python"
    "/etc/apt/sources.list" "/root/.config/pip/pip.conf"
    (fun mirror => "[global]index-url=" +:+ mirror)
    "tensorchord/midi-ssh:latest" "cache-dir"
    (fun _ => "/etc/apt")
    (fun old needed => 2 * old)
    (fun p => p)
    download
    (fun p => p +:+ "/extension").

Definition boot : Proc (list string) := mkProc [] [] [].

(** The graph [NewGraph] builds from [boot], with the given GPU versions
    and plugins filled in, and the process state it leaves. *)
Definition graph (cuda cudnn : option string) (plugins : list string)
  : Graph string :=
  mkGraph "ubuntu20.04" "python" cuda cudnn
          (mkSlice 0 2 2) (mkSlice 1 0 0) (mkSlice 2 0 0)
          plugins None None [].

Definition proc : Proc (list string) :=
  mkProc [["curl"; "openssh-client"]; []; []] [] [].

End Demo.

(** ** Words of a command line *)

Definition is_space (a : ascii) : bool := Ascii.eqb a " "%char.

Definition flush (cur : string) : list string :=
  match cur with
  | EmptyString => []
  | _ => [cur]
  end.

(** The space-separated fields of a string, like [strings.Fields] restricted
    to the blank. *)
Fixpoint fields_go (cur s : string) : list string :=
  match s with
  | EmptyString => flush cur
  | String a s' =>
      if is_space a then flush cur ++ fields_go EmptyString s'
      else fields_go (cur +:+ String a EmptyString) s'
  end.

Definition fields (s : string) : list string := fields_go EmptyString s.

(** A package name: not empty, no blank inside. *)
Fixpoint no_space (s : string) : bool :=
  match s with
  | EmptyString => true
  | String a s' => negb (is_space a) && no_space s'
  end.

Definition is_word (s : string) : bool :=
  match s with
  | EmptyString => false
  | _ => no_space s
  end.

(** The package listing of an install command: every name behind one
    blank. *)
Definition listing (pkgs : list string) : string :=
  fold_right (fun pkg rest => " " +:+ pkg +:+ rest) EmptyString pkgs.


(** ** The shell bootstrap manager ([pkg/shell/zsh.go]) *)

Module Shell.

(** One call of [git.PlainClone(path, isBare, &git.CloneOptions{URL})]. *)
Record CloneCall := mkCloneCall {
  clone_path : string;
  clone_bare : bool;
  clone_url : string;
}.

(** What [zsh.go] takes from outside: the embedded [install.sh], the cache
    directory of [pkg/home], [filepath.Join], [fileutil.DirExists] (a query
    of the file system) and go-git's [PlainClone] (which changes it). *)
Record Runtime (FS : Type) := mkRuntime {
  installScript : string;
  CacheDir : string;
  filepath_Join : string -> string -> string;
  fileutil_DirExists : string -> FS -> bool * option error;
  git_PlainClone : CloneCall -> FS -> option error * FS;
}.
Arguments installScript {FS} _.
Arguments CacheDir {FS} _.
Arguments filepath_Join {FS} _ _ _.
Arguments fileutil_DirExists {FS} _ _ _.
Arguments git_PlainClone {FS} _ _ _.

(** The file system, and the clones performed so far. *)
Record Sys (FS : Type) := mkSys {
  fs : FS;
  clones : list CloneCall;
}.
Arguments mkSys {FS} _ _.
Arguments fs {FS} _.
Arguments clones {FS} _.

Section Manager.
Context {FS : Type}.
Variable rt : Runtime FS.

(** [(m generalManager) InstallScript()] *)
Definition InstallScript : string := installScript rt.

(** [(m generalManager) OHMyZSHDir()] *)
Definition OHMyZSHDir : string :=
  filepath_Join rt (CacheDir rt) "oh-my-zsh".

Definition PlainClone (c : CloneCall) (st : Sys FS)
  : option error * Sys FS :=
  let '(err, fs') := git_PlainClone rt c (fs st) in
  (err, mkSys fs' (clones st ++ [c])).

(** [(m generalManager) DownloadOrCache()]; [None] is a nil error. *)
Definition DownloadOrCache (st : Sys FS) : option error * Sys FS :=
  match fileutil_DirExists rt OHMyZSHDir (fs st) with
  | (_, Some err) => (Some err, st)
  | (true, None) => (None, st)
  | (false, None) =>
      match PlainClone
              (mkCloneCall OHMyZSHDir false
                           "https://github.com/ohmyzsh/ohmyzsh") st with
      | (Some err, st') => (Some err, st')
      | (None, st') => (None, st')
      end
  end.

End Manager.

End Shell.

(** A concrete file system for the shell manager: the set of directories
    that exist; a clone creates its target. *)
Module ShellDemo.

Definition dir_exists (d : string) (dirs : list string)
  : bool * option error :=
  (existsb (String.eqb d) dirs, None).

Definition clone (c : Shell.CloneCall) (dirs : list string)
  : option error * list string :=
  (None, Shell.clone_path c :: dirs).

Definition rt : Shell.Runtime (list string) :=
  Shell.mkRuntime (list string)
    "#!/bin/sh" "/home/me/.cache/envd"
    (fun a b => a +:+ "/" +:+ b)
    dir_exists clone.

Definition boot : Shell.Sys (list string) := Shell.mkSys [] [].

End ShellDemo.

(** ** The composition the graph assembler is specified to build *)

(** [m], started in [st], returns [a] and leaves [st']. *)
Definition returns {World A} (m : M World A) (st : Proc World)
    (a : A) (st' : Proc World) : Prop :=
  m st = (Val a, st').

Section Assembly.
Context {Plugin World : Type}.
Variable rt : Runtime Plugin World.

(** The fixed order of the specification: base, custom source on [base]
    ([aptStage]), built-in install on [aptStage], mirror on the built-in
    stage, language install on the mirror stage diffed against [aptStage],
    user system install on [aptStage] diffed against [aptStage], the
    auxiliary tool, the optional plugin layer, and the final merge
    [aptStage; systemDiff; languageDiff; toolStage; pluginStage?]. *)
Definition assembly (g : Graph Plugin) (st : Proc World)
    (s : State) (st' : Proc World) : Prop :=
  exists base g1 st1 aptStage st2 builtinStage st3 mirrorStage st4
         language st5 user st6 toolStage st7 pluginStage,
    returns (compileBase rt g) st (base, g1) st1 /\
    returns (compileUbuntuAPT rt g1 base) st1 aptStage st2 /\
    returns (compileBuiltinSystemPackages g1 aptStage) st2
            builtinStage st3 /\
    returns (compilePyPIMirror rt g1 builtinStage) st3 mirrorStage st4 /\
    returns (compilePyPIPackages g1 mirrorStage) st4 language st5 /\
    returns (compileSystemPackages g1 aptStage) st5 user st6 /\
    returns (copyMidiSSHServer rt g1) st6 toolStage st7 /\
    returns (compileVSCode rt g1) st7 (Ok pluginStage) st' /\
    (pluginStage = None <-> VSCodePlugins g = []) /\
    s = Merge ([aptStage; Diff aptStage user; Diff aptStage language;
                toolStage] ++ option_list pluginStage).

(** Base selection invoked [n] times in a row on one [Graph] instance. *)
Fixpoint compileBase_times (n : nat) (g : Graph Plugin)
  : M World (Graph Plugin) :=
  match n with
  | 0 => ret g
  | S n' => bg <- compileBase rt g;; compileBase_times n' (snd bg)
  end.

(** The three package slices of a graph are consistent with the heap. *)
Definition graph_ok (h : Heap) (g : Graph Plugin) : Prop :=
  slice_ok h (BuiltinSystemPackages g) /\
  slice_ok h (PyPIPackages g) /\
  slice_ok h (SystemPackages g).

(** Whether a download succeeds does not depend on the downloads attempted
    before it: the collaborator's answer is a function of the outside
    world, which the attempts themselves leave as it is. *)
Definition stable_downloads : Prop :=
  forall (p q : Plugin) (w : World),
    fst (vscode_DownloadOrCache rt p (snd (vscode_DownloadOrCache rt q w)))
    = fst (vscode_DownloadOrCache rt p w).

End Assembly.

(** What [Compile] returns once the stages and the outcome of plugin
    materialization are known. *)
Definition merged (aptStage user language toolStage : State)
    (r : result (option State)) : result State :=
  match r with
  | Err e => Err (Wrap e "failed to get vscode plugins")
  | Ok o =>
      Ok (Merge ([aptStage; Diff aptStage user; Diff aptStage language;
                  toolStage] ++ option_list o))
  end.

(** Whether [needle] occurs in [hay]. *)
Fixpoint contains (needle hay : string) : bool :=
  String.prefix needle hay ||
  match hay with
  | EmptyString => false
  | String _ hay' => contains needle hay'
  end.

(** The GPU base image named after the toolkit version, the library version
    and the OS. *)
Definition gpu_image (c d os : string) : State :=
  Image ("nvidia/cuda:" +:+ c +:+ ".0-cudnn" +:+ d +:+ "-devel-" +:+ os).

(** Exactly one of two optional fields is set. *)
Definition one_sided {A B} (a : option A) (b : option B) : Prop :=
  match a, b with
  | Some _, None | None, Some _ => True
  | _, _ => False
  end.

(** A descriptor with one user system package, one language package and
    both overrides, on the heap that holds its three lists. *)
Module Sample.

Definition graph : Graph string :=
  mkGraph "ubuntu20.04" "python" None None
          (mkSlice 0 2 2) (mkSlice 1 1 1) (mkSlice 2 1 1)
          []
          (Some "deb http://mirror.example/ubuntu focal main")
          (Some "https://pypi.example/simple")
          [].

Definition proc : Proc (list string) :=
  mkProc [["curl"; "openssh-client"]; ["numpy"]; ["vim"]] [] [].

(** The serialization used with the entry point: the number of merge
    inputs, or an error for a state that is no merge. *)
Definition marshal (s : State) : result nat :=
  match s with
  | Merge ins => Ok (length ins)
  | _ => Err (ErrorString "not a merge")
  end.

End Sample.

(** ** The rest of the compiler's surface *)

Section Surface.
Context {Plugin World : Type}.
Variable rt : Runtime Plugin World.

(** The world after the collaborator was asked for each plugin of [ps] in
    turn, starting from [w]. *)
Fixpoint world_after (ps : list Plugin) (w : World) : World :=
  match ps with
  | [] => w
  | p :: ps' => world_after ps' (snd (vscode_DownloadOrCache rt p w))
  end.

(** Every plugin of [ps], asked for in turn from [w], is materialized. *)
Fixpoint downloads_ok (ps : list Plugin) (w : World) : bool :=
  match ps with
  | [] => true
  | p :: ps' =>
      match fst (vscode_DownloadOrCache rt p w) with
      | None => downloads_ok ps' (snd (vscode_DownloadOrCache rt p w))
      | Some _ => false
      end
  end.

(** The isolated layer of a custom package source, and of a custom mirror,
    as [compileUbuntuAPT] and [compilePyPIMirror] build them. *)
Definition source_layer (source : string) : State :=
  File (File Scratch
          (Mkdir (filepath_Dir rt (aptSourceFilePath rt)) 493%N true))
       (Mkfile (aptSourceFilePath rt) 420%N source).

Definition mirror_layer (mirror : string) : State :=
  File (File Scratch
          (Mkdir (filepath_Dir rt (pypiMirrorFilePath rt)) 493%N true))
       (Mkfile (pypiMirrorFilePath rt) 420%N (pypiConfig rt mirror)).

(** The diagnostics of the two overrides. *)
Definition source_log (g : Graph Plugin) : list LogEntry :=
  match UbuntuAPTSource g with
  | Some source => [mkLog "source" source "using custom APT source"]
  | None => []
  end.

Definition mirror_log (g : Graph Plugin) : list LogEntry :=
  match PyPIMirror g with
  | Some mirror => [mkLog "mirror" mirror "using custom PyPI mirror"]
  | None => []
  end.

(** The files of the two overrides: path and content. *)
Definition source_file (g : Graph Plugin) : list (string * string) :=
  match UbuntuAPTSource g with
  | Some source => [(aptSourceFilePath rt, source)]
  | None => []
  end.

Definition mirror_file (g : Graph Plugin) : list (string * string) :=
  match PyPIMirror g with
  | Some mirror => [(pypiMirrorFilePath rt, pypiConfig rt mirror)]
  | None => []
  end.

(** [Compile(ctx)], the package-level entry point, on the graph
    [DefaultGraph] points to.  [Marshal] is [state.Marshal(ctx,
    llb.LinuxAmd64)] of the external library. *)
Definition Compile_ctx {Def : Type} (Marshal : State -> result Def)
    (DefaultGraph : Graph Plugin) : M World (result Def) :=
  r <- Compile rt DefaultGraph;;
  match r with
  | Err err => ret (Err err)
  | Ok state =>
      match Marshal state with
      | Err err => ret (Err err)
      | Ok def => ret (Ok def)
      end
  end.

End Surface.

(** The command of the built-in installer for a package list. *)
Definition builtin_command (pkgs : list string) : string :=
  "sh -c " +:+ dquote +:+
  "apt-get update && apt-get install -y --no-install-recommends" +:+
  listing pkgs +:+ dquote.

(** The one command a list of packages gives rise to: none for an empty
    slice. *)
Definition command_if (s : Slice) (cmd : string) : list string :=
  if len s =? 0 then [] else [cmd].

(** The baseline interpreter image of [compileBase]. *)
Definition baseline : State := Image "docker.io/library/python:3.8".

(** The stages of [Compile] as values: what each layer builder returns on
    a heap [h]. *)
Section Stages.
Context {Plugin World : Type}.
Variable rt : Runtime Plugin World.

Definition apt_stage (g : Graph Plugin) (base : State) : State :=
  match UbuntuAPTSource g with
  | Some source => Merge [base; source_layer rt source]
  | None => base
  end.

Definition builtin_stage (h : Heap) (g : Graph Plugin) (root : State)
  : State :=
  if len (BuiltinSystemPackages g) =? 0 then root
  else Run root (builtin_command (elems h (BuiltinSystemPackages g)))
           [cache_mount "/var/cache/apt"; cache_mount "/var/lib/apt"].

Definition mirror_stage (g : Graph Plugin) (root : State) : State :=
  match PyPIMirror g with
  | Some mirror => Merge [root; mirror_layer rt mirror]
  | None => root
  end.

Definition language_stage (h : Heap) (g : Graph Plugin) (root : State)
  : State :=
  if len (PyPIPackages g) =? 0 then root
  else Run root ("pip install" +:+ listing (elems h (PyPIPackages g)))
           [cache_mount "/root/.cache/pip"].

Definition user_stage (h : Heap) (g : Graph Plugin) (root : State) : State :=
  if len (SystemPackages g) =? 0 then root
  else Run root ("apt install" +:+ listing (elems h (SystemPackages g)))
           [cache_mount "/var/cache/apt"; cache_mount "/var/lib/apt"].

Definition tool_stage : State :=
  File Scratch
    (Copy (Image (sshImage rt)) "usr/bin/midi-ssh" "/var/midi/bin/midi-ssh"
          true).

End Stages.

(** Every file action anywhere in a build state ([llb.Mkdir], [llb.Mkfile]
    and [llb.Copy]), sources of mounts and of copies included, in the order
    the operations nest. *)
Fixpoint file_actions (s : State) : list (FileAction State) :=
  match s with
  | Image _ | Scratch | Local _ => []
  | Run r _ ms =>
      file_actions r ++ flat_map (fun m => file_actions (mount_source m)) ms
  | File b a =>
      file_actions b ++
      match a with
      | Copy src _ _ _ => file_actions src
      | Mkdir _ _ _ | Mkfile _ _ _ => []
      end ++ [a]
  | Diff l u => file_actions l ++ file_actions u
  | Merge ins => flat_map file_actions ins
  end.

(** The file actions the compiler issues: two per override that is set, the
    copy of the tool binary, the copy of a plugin. *)
Section FileActions.
Context {Plugin World : Type}.
Variable rt : Runtime Plugin World.

Definition source_actions (g : Graph Plugin) : list (FileAction State) :=
  match UbuntuAPTSource g with
  | Some source =>
      [Mkdir (filepath_Dir rt (aptSourceFilePath rt)) 493%N true;
       Mkfile (aptSourceFilePath rt) 420%N source]
  | None => []
  end.

Definition mirror_actions (g : Graph Plugin) : list (FileAction State) :=
  match PyPIMirror g with
  | Some mirror =>
      [Mkdir (filepath_Dir rt (pypiMirrorFilePath rt)) 493%N true;
       Mkfile (pypiMirrorFilePath rt) 420%N (pypiConfig rt mirror)]
  | None => []
  end.

Definition tool_copy : FileAction State :=
  Copy (Image (sshImage rt)) "usr/bin/midi-ssh" "/var/midi/bin/midi-ssh" true.

Definition plugin_copy (p : Plugin) : FileAction State :=
  Copy (Local (FlagCacheDir rt)) (vscode_PluginPath rt p)
       ("/root/.vscode-server/extensions/" +:+ plugin_String rt p) true.

End FileActions.

(** The clone [DownloadOrCache] of the shell manager asks for. *)
Definition framework_clone {FS} (rt : Shell.Runtime FS) : Shell.CloneCall :=
  Shell.mkCloneCall (Shell.OHMyZSHDir rt) false
                    "https://github.com/ohmyzsh/ohmyzsh".

(** * Properties *)

(** ** Strings and command lines *)

#[local] Arguments String.append !_ _ : simpl nomatch.

Lemma string_app_assoc (a b c : string) : (a +:+ b) +:+ c = a +:+ (b +:+ c).
Proof. induction a as [|x a IH]; simpl; [reflexivity | now rewrite IH]. Qed.

Lemma string_app_empty_r (a : string) : a +:+ EmptyString = a.
Proof. induction a as [|x a IH]; simpl; [reflexivity | now rewrite IH]. Qed.

(** The builder's left fold writes the prefix followed by the listing. *)
Lemma write_packages_listing (pkgs : list string) (prefix : string) :
  write_packages prefix pkgs = prefix +:+ listing pkgs.
Proof.
  unfold write_packages. revert prefix.
  induction pkgs as [|p ps IH]; intros prefix;
    cbn [fold_left listing fold_right].
  - now rewrite string_app_empty_r.
  - rewrite IH. now rewrite !string_app_assoc.
Qed.

Lemma fields_go_word (w cur rest : string) :
  no_space w = true ->
  fields_go cur (w +:+ rest) = fields_go (cur +:+ w) rest.
Proof.
  revert cur. induction w as [|a w IH]; intros cur Hw; simpl in *.
  - now rewrite string_app_empty_r.
  - apply andb_prop in Hw as [Ha Hw].
    apply negb_true_iff in Ha. rewrite Ha.
    rewrite IH by assumption.
    now rewrite string_app_assoc.
Qed.

Lemma fields_go_listing (cur : string) (pkgs : list string) :
  fields_go cur (listing pkgs) = flush cur ++ fields (listing pkgs).
Proof.
  destruct pkgs as [|p ps]; simpl.
  - now rewrite app_nil_r.
  - reflexivity.
Qed.

Lemma listing_app (ws pkgs : list string) :
  listing (ws ++ pkgs) = listing ws +:+ listing pkgs.
Proof.
  induction ws as [|w ws IH]; [reflexivity|].
  cbn [app listing fold_right]. fold (listing (ws ++ pkgs)) (listing ws).
  rewrite IH. now rewrite !string_app_assoc.
Qed.

Lemma fields_leading_blank (s : string) :
  fields (String " " s) = fields s.
Proof. reflexivity. Qed.

Lemma string_cons_app (a : ascii) (s t : string) :
  String a s +:+ t = String a (s +:+ t).
Proof. reflexivity. Qed.

(** The update and install words of the built-in installer, as a listing. *)
Lemma install_script_listing :
  listing ["apt-get"; "update"; "&&";
           "apt-get"; "install"; "-y"; "--no-install-recommends"]
  = String " "
      "apt-get update && apt-get install -y --no-install-recommends".
Proof. reflexivity. Qed.

(** Splitting a listing at its blanks gives the packages back. *)
Lemma fields_listing (pkgs : list string) :
  forallb is_word pkgs = true -> fields (listing pkgs) = pkgs.
Proof.
  induction pkgs as [|p ps IH]; intros Hall; [reflexivity|].
  simpl in Hall. apply andb_prop in Hall as [Hp Hps].
  unfold fields. simpl.
  destruct p as [|a p]; [discriminate|].
  simpl in Hp.
  change (fields_go EmptyString (String a p +:+ listing ps)
          = String a p :: ps).
  rewrite fields_go_word by exact Hp.
  simpl. rewrite fields_go_listing. simpl.
  now rewrite IH.
Qed.

(** ** Layer builders *)

Section LayerBuilders.
Context {Plugin World : Type}.
Variable rt : Runtime Plugin World.

Implicit Types (g : Graph Plugin) (st : Proc World) (root : State).

(** The three installers only read: they return, and leave the process
    state as it was. *)
Lemma compilePyPIPackages_reads g root st :
  compilePyPIPackages g root st =
    (Val (if len (PyPIPackages g) =? 0 then root
          else Run root
                 ("pip install" +:+ listing (elems (heap st) (PyPIPackages g)))
                 [cache_mount "/root/.cache/pip"]),
     st).
Proof.
  unfold compilePyPIPackages.
  destruct (len (PyPIPackages g) =? 0); [reflexivity|].
  unfold bind, read, ret. now rewrite write_packages_listing.
Qed.

Lemma compileSystemPackages_reads g root st :
  compileSystemPackages g root st =
    (Val (if len (SystemPackages g) =? 0 then root
          else Run root
                 ("apt install" +:+ listing (elems (heap st) (SystemPackages g)))
                 [cache_mount "/var/cache/apt"; cache_mount "/var/lib/apt"]),
     st).
Proof.
  unfold compileSystemPackages.
  destruct (len (SystemPackages g) =? 0); [reflexivity|].
  unfold bind, read, ret. now rewrite write_packages_listing.
Qed.

Lemma compileBuiltinSystemPackages_reads g root st :
  compileBuiltinSystemPackages g root st =
    (Val (if len (BuiltinSystemPackages g) =? 0 then root
          else Run root
                 ("sh -c " +:+ dquote +:+
                  "apt-get update && apt-get install -y --no-install-recommends"
                  +:+ listing (elems (heap st) (BuiltinSystemPackages g))
                  +:+ dquote)
                 [cache_mount "/var/cache/apt"; cache_mount "/var/lib/apt"]),
     st).
Proof.
  unfold compileBuiltinSystemPackages.
  destruct (len (BuiltinSystemPackages g) =? 0); [reflexivity|].
  unfold bind, read, ret. rewrite write_packages_listing.
  now rewrite !string_app_assoc.
Qed.

(** The two override injectors return, touching only the diagnostics. *)
Lemma compileUbuntuAPT_returns g root st :
  exists s d,
    compileUbuntuAPT rt g root st = (Val s, mkProc (heap st) (world st) d).
Proof.
  unfold compileUbuntuAPT. destruct (UbuntuAPTSource g) as [src|].
  - eexists _, _. reflexivity.
  - exists root, (diag st). now destruct st.
Qed.

Lemma compilePyPIMirror_returns g root st :
  exists s d,
    compilePyPIMirror rt g root st = (Val s, mkProc (heap st) (world st) d).
Proof.
  unfold compilePyPIMirror. destruct (PyPIMirror g) as [m|].
  - eexists _, _. reflexivity.
  - exists root, (diag st). now destruct st.
Qed.

(** C8. A layer builder whose optional configuration is absent (no custom
    package source, no custom mirror, an empty language package list, an
    empty user system package list) returns the state it was given, adds
    no layer and leaves the process state alone. *)
Theorem absent_configuration_passes_through g root st :
  (UbuntuAPTSource g = None ->
     compileUbuntuAPT rt g root st = (Val root, st)) /\
  (PyPIMirror g = None ->
     compilePyPIMirror rt g root st = (Val root, st)) /\
  (len (PyPIPackages g) = 0 ->
     compilePyPIPackages g root st = (Val root, st)) /\
  (len (SystemPackages g) = 0 ->
     compileSystemPackages g root st = (Val root, st)).
Proof.
  repeat split.
  - intros H. unfold compileUbuntuAPT. now rewrite H.
  - intros H. unfold compilePyPIMirror. now rewrite H.
  - intros H. unfold compilePyPIPackages. now rewrite H.
  - intros H. unfold compileSystemPackages. now rewrite H.
Qed.

(** C7. For a non-empty built-in package list the installer runs one
    command on its root: the package manager's update, then its install
    with the listing of the packages, each entry once and in the order of
    the list.  Read back from the command line, the listing is the list
    itself. *)
Theorem builtin_install_command g root st :
  len (BuiltinSystemPackages g) <> 0 ->
  let pkgs := elems (heap st) (BuiltinSystemPackages g) in
  exists cmd mounts,
    compileBuiltinSystemPackages g root st = (Val (Run root cmd mounts), st)
    /\ cmd = "sh -c " +:+ dquote +:+ "apt-get update" +:+ " && " +:+
             "apt-get install -y --no-install-recommends" +:+
             listing pkgs +:+ dquote
    /\ (forallb is_word pkgs = true ->
        fields (listing pkgs) = pkgs /\
        fields ("apt-get update && apt-get install -y --no-install-recommends"
                +:+ listing pkgs)
        = ["apt-get"; "update"; "&&";
           "apt-get"; "install"; "-y"; "--no-install-recommends"] ++ pkgs).
Proof.
  intros Hne pkgs.
  rewrite compileBuiltinSystemPackages_reads.
  apply Nat.eqb_neq in Hne. rewrite Hne.
  eexists _, _. split; [reflexivity|]. split; [reflexivity|].
  intros Hw. split; [now apply fields_listing|].
  rewrite <- fields_leading_blank.
  rewrite <- (string_cons_app " ").
  rewrite <- install_script_listing, <- listing_app.
  apply fields_listing. rewrite forallb_app. now rewrite Hw.
Qed.

End LayerBuilders.

(** ** Slices and [append] *)

Lemma elems_length (h : Heap) (s : Slice) :
  slice_ok h s -> length (elems h s) = len s.
Proof.
  intros (_ & Hc & Hl). unfold elems. rewrite length_take. lia.
Qed.

Lemma backing_app_l (h k : Heap) (t : Slice) :
  ptr t < length h -> backing (h ++ k) t = backing h t.
Proof. intros Ht. unfold backing. now rewrite lookup_app_l. Qed.

Lemma elems_app_l (h k : Heap) (t : Slice) :
  ptr t < length h -> elems (h ++ k) t = elems h t.
Proof. intros Ht. unfold elems. now rewrite backing_app_l. Qed.

Lemma slice_ok_app_l (h k : Heap) (t : Slice) :
  slice_ok h t -> slice_ok (h ++ k) t.
Proof.
  intros (Hp & Hc & Hl). unfold slice_ok.
  rewrite backing_app_l by assumption. rewrite length_app. repeat split; lia.
Qed.

Lemma backing_fresh (h : Heap) (arr : list string) (n c : nat) :
  backing (h ++ [arr]) (mkSlice (length h) n c) = arr.
Proof.
  unfold backing. simpl. rewrite lookup_app_r by lia.
  now rewrite Nat.sub_diag.
Qed.

Section Append.
Variable growcap : nat -> nat -> nat.

(** [append] returns the old elements followed by the new ones, keeps
    every consistent header consistent, and leaves what the argument
    header itself sees as it was. *)
Lemma append_at_spec (s : Slice) (xs : list string) (h : Heap) :
  slice_ok h s ->
  let s1 := fst (append_at growcap s xs h) in
  let h1 := snd (append_at growcap s xs h) in
  elems h1 s1 = elems h s ++ xs /\
  len s1 = len s + length xs /\
  elems h1 s = elems h s /\
  (forall t, slice_ok h t -> slice_ok h1 t) /\
  slice_ok h1 s1.
Proof.
  intros (Hp & Hc & Hl). unfold append_at.
  destruct (len s + length xs <=? cap s) eqn:Hroom; simpl.
  - apply Nat.leb_le in Hroom.
    set (arr := backing h s) in *.
    set (arr1 := take (len s) arr ++ xs ++ drop (len s + length xs) arr).
    assert (Hlen : length (take (len s) arr) = len s)
      by (rewrite length_take; lia).
    assert (Hlen1 : length arr1 = cap s).
    { unfold arr1. rewrite !length_app, length_drop, Hlen. lia. }
    assert (Hnew : forall t, ptr t = ptr s ->
                     backing (<[ptr s := arr1]> h) t = arr1).
    { intros t e. unfold backing. rewrite e.
      now rewrite list_lookup_insert_eq. }
    assert (Hold : forall t, ptr t <> ptr s ->
                     backing (<[ptr s := arr1]> h) t = backing h t).
    { intros t n. unfold backing.
      now rewrite list_lookup_insert_ne by congruence. }
    split; [|split; [|split; [|split]]].
    + unfold elems. rewrite Hnew by reflexivity. simpl.
      unfold arr1. rewrite app_assoc.
      rewrite take_app_length'; [reflexivity|].
      rewrite length_app. lia.
    + reflexivity.
    + unfold elems. rewrite Hnew by reflexivity.
      unfold arr1. now rewrite take_app_length'.
    + intros t (H1 & H2 & H3). unfold slice_ok.
      rewrite length_insert.
      destruct (decide (ptr t = ptr s)) as [e|n].
      * rewrite Hnew by exact e. rewrite Hlen1.
        unfold backing in H2. rewrite e in H2.
        change (default [] (h !! ptr s)) with arr in H2.
        repeat split; [assumption | lia | assumption].
      * rewrite Hold by exact n. repeat split; assumption.
    + unfold slice_ok. rewrite length_insert.
      rewrite Hnew by reflexivity. simpl.
      repeat split; [assumption | assumption | lia].
  - apply Nat.leb_gt in Hroom.
    assert (Hlen : length (elems h s) = len s)
      by (apply elems_length; repeat split; assumption).
    split; [|split; [|split; [|split]]].
    + unfold elems at 1. rewrite backing_fresh. simpl.
      rewrite app_assoc. rewrite take_app_length'; [reflexivity|].
      rewrite length_app. lia.
    + reflexivity.
    + now apply elems_app_l.
    + intros t Ht. now apply slice_ok_app_l.
    + unfold slice_ok. rewrite backing_fresh. simpl.
      rewrite !length_app, length_replicate, Hlen. simpl.
      repeat split; lia.
Qed.

End Append.

Section AppendTwice.
Variable growcap : nat -> nat -> nat.

(** Appending the same elements to the same header a second time, on the
    heap the first [append] left, produces a slice with the same length
    and elements, and every array allocated before the first [append]
    reads the same after the second as after the first. *)
Lemma append_at_replay (s : Slice) (xs : list string) (h : Heap) :
  slice_ok h s ->
  let s1 := fst (append_at growcap s xs h) in
  let h1 := snd (append_at growcap s xs h) in
  let s2 := fst (append_at growcap s xs h1) in
  let h2 := snd (append_at growcap s xs h1) in
  len s2 = len s1 /\
  elems h2 s2 = elems h1 s1 /\
  (forall t, ptr t < length h -> elems h2 t = elems h1 t).
Proof.
  intros Hs s1 h1 s2 h2.
  destruct (append_at_spec growcap s xs h Hs)
    as (He1 & Hl1 & Hsame1 & Hok1 & _).
  fold s1 h1 in He1, Hl1, Hsame1, Hok1.
  pose proof (Hok1 s Hs) as Hs1.
  destruct (append_at_spec growcap s xs h1 Hs1)
    as (He2 & Hl2 & _ & _ & _).
  fold s2 h2 in He2, Hl2.
  split; [lia|]. split; [congruence|].
  intros t Ht. subst s1 h1 s2 h2.
  destruct Hs as (Hp & Hc & Hl).
  unfold append_at.
  destruct (len s + length xs <=? cap s) eqn:Hroom; simpl.
  - apply Nat.leb_le in Hroom.
    set (arr := backing h s).
    set (arr1 := take (len s) arr ++ xs ++ drop (len s + length xs) arr).
    assert (Hlen : length (take (len s) arr) = len s).
    { rewrite length_take. unfold arr. lia. }
    assert (Hb : backing (<[ptr s := arr1]> h) s = arr1).
    { unfold backing. now rewrite list_lookup_insert_eq. }
    rewrite Hb.
    assert (Hfix : take (len s) arr1 ++ xs ++
                   drop (len s + length xs) arr1 = arr1).
    { unfold arr1 at 3. f_equal.
      - unfold arr1. now rewrite take_app_length'.
      - f_equal. unfold arr1. rewrite app_assoc.
        rewrite drop_app_length'; [reflexivity|].
        rewrite length_app. lia. }
    rewrite Hfix. now rewrite list_insert_insert_eq.
  - match goal with |- elems (?a ++ ?b) t = _ => apply (elems_app_l a b t) end.
    rewrite length_app. lia.
Qed.

End AppendTwice.

(** ** Base selection *)

Section BaseSelection.
Context {Plugin World : Type}.
Variable rt : Runtime Plugin World.

Implicit Types (g : Graph Plugin) (st : Proc World).

Lemma compileBase_none g st :
  CUDA g = None -> CUDNN g = None ->
  compileBase rt g st = (Val (Image "docker.io/library/python:3.8", g), st).
Proof. intros H1 H2. unfold compileBase. now rewrite H1, H2. Qed.

Lemma compileBase_both g st c d :
  CUDA g = Some c -> CUDNN g = Some d ->
  let ap := append_at (growcap rt) (BuiltinSystemPackages g)
              [Language g; Language g +:+ "-pip"] (heap st) in
  compileBase rt g st =
    (Val (gpu_image c d (OS g), set_BuiltinSystemPackages (fst ap) g),
     mkProc (snd ap) (world st) (diag st)).
Proof.
  intros H1 H2 ap. unfold compileBase, compileCUDAPackages.
  rewrite H1, H2. unfold bind, deref, ret, append. simpl.
  fold ap. now destruct ap.
Qed.

Lemma compileBase_one_sided g st :
  one_sided (CUDA g) (CUDNN g) ->
  compileBase rt g st = (Panic nil_deref, st).
Proof.
  unfold one_sided, compileBase, compileCUDAPackages.
  destruct (CUDA g), (CUDNN g); intros H; try contradiction; reflexivity.
Qed.

(** Base selection panics exactly when one GPU version is set without the
    other. *)
Lemma compileBase_panics g st msg st' :
  compileBase rt g st = (Panic msg, st') ->
  one_sided (CUDA g) (CUDNN g).
Proof.
  destruct (CUDA g) as [c|] eqn:H1, (CUDNN g) as [d|] eqn:H2; simpl; auto.
  - rewrite (compileBase_both g st c d H1 H2). discriminate.
  - rewrite (compileBase_none g st H1 H2). discriminate.
Qed.

(** Base selection changes no field of the graph but the built-in package
    slice. *)
Lemma compileBase_fields g st base g1 st1 :
  compileBase rt g st = (Val (base, g1), st1) ->
  g1 = set_BuiltinSystemPackages (BuiltinSystemPackages g1) g /\
  world st1 = world st /\ diag st1 = diag st.
Proof.
  destruct (CUDA g) as [c|] eqn:H1, (CUDNN g) as [d|] eqn:H2.
  - rewrite (compileBase_both g st c d H1 H2). intros [= _ <- <-].
    repeat split.
  - rewrite compileBase_one_sided by (now rewrite H1, H2). discriminate.
  - rewrite compileBase_one_sided by (now rewrite H1, H2). discriminate.
  - rewrite (compileBase_none g st H1 H2). intros [= _ <- <-].
    now destruct g.
Qed.

Lemma compileBase_times_appends (n : nat) g st c d :
  CUDA g = Some c -> CUDNN g = Some d ->
  slice_ok (heap st) (BuiltinSystemPackages g) ->
  exists g' st',
    compileBase_times rt n g st = (Val g', st') /\
    elems (heap st') (BuiltinSystemPackages g') =
      elems (heap st) (BuiltinSystemPackages g) ++
      concat (replicate n [Language g; Language g +:+ "-pip"]).
Proof.
  revert g st. induction n as [|n IH]; intros g st Hc Hd Hok.
  - exists g, st. simpl. now rewrite app_nil_r.
  - cbn [compileBase_times]. unfold bind.
    rewrite (compileBase_both g st c d Hc Hd). cbn [snd fst].
    destruct (append_at_spec (growcap rt) (BuiltinSystemPackages g)
                [Language g; Language g +:+ "-pip"] (heap st) Hok)
      as (He & _ & _ & _ & Hok1).
    set (ap := append_at (growcap rt) (BuiltinSystemPackages g)
                 [Language g; Language g +:+ "-pip"] (heap st)) in *.
    destruct (IH (set_BuiltinSystemPackages (fst ap) g)
                 (mkProc (snd ap) (world st) (diag st)) Hc Hd Hok1)
      as (g' & st' & Hrun & Hel).
    exists g', st'. split; [exact Hrun|].
    rewrite Hel. cbn [heap BuiltinSystemPackages set_BuiltinSystemPackages
                       Language].
    rewrite He. cbn [replicate concat]. now rewrite <- !app_assoc.
Qed.

(** C3, as the code has it.  With both GPU versions set, one invocation of
    base selection returns the GPU image and leaves the built-in package
    list as the original list followed by the language and the language
    with [-pip]; this is the one invocation a compilation makes.  There is
    no guard against repetition: [n] invocations on the same instance
    append the pair [n] times. *)
Theorem base_selection_appends_per_invocation g st c d :
  CUDA g = Some c -> CUDNN g = Some d ->
  slice_ok (heap st) (BuiltinSystemPackages g) ->
  (exists g1 st1,
     compileBase rt g st = (Val (gpu_image c d (OS g), g1), st1) /\
     elems (heap st1) (BuiltinSystemPackages g1) =
       elems (heap st) (BuiltinSystemPackages g) ++
       [Language g; Language g +:+ "-pip"]) /\
  (forall n, exists g' st',
     compileBase_times rt n g st = (Val g', st') /\
     elems (heap st') (BuiltinSystemPackages g') =
       elems (heap st) (BuiltinSystemPackages g) ++
       concat (replicate n [Language g; Language g +:+ "-pip"])).
Proof.
  intros Hc Hd Hok. split.
  - rewrite (compileBase_both g st c d Hc Hd).
    eexists _, _. split; [reflexivity|].
    now destruct (append_at_spec (growcap rt) (BuiltinSystemPackages g)
                    [Language g; Language g +:+ "-pip"] (heap st) Hok)
      as (He & _).
  - intros n. now apply (compileBase_times_appends n g st c d).
Qed.

(** The three cases of base selection.  With neither GPU version set it
    returns the baseline interpreter image and changes nothing; with both
    set it returns the GPU image named after both versions and the OS;
    with exactly one set it dereferences the absent one and panics. *)
Lemma base_selection_cases g st :
  match CUDA g, CUDNN g with
  | None, None =>
      compileBase rt g st =
        (Val (Image "docker.io/library/python:3.8", g), st)
  | Some c, Some d =>
      exists g1 st1,
        compileBase rt g st = (Val (gpu_image c d (OS g), g1), st1)
  | _, _ => compileBase rt g st = (Panic nil_deref, st)
  end.
Proof.
  destruct (CUDA g) as [c|] eqn:H1, (CUDNN g) as [d|] eqn:H2.
  - rewrite (compileBase_both g st c d H1 H2). eexists _, _. reflexivity.
  - apply compileBase_one_sided. now rewrite H1, H2.
  - apply compileBase_one_sided. now rewrite H1, H2.
  - now apply compileBase_none.
Qed.

End BaseSelection.

(** ** Plugin materialization *)

Section Plugins.
Context {Plugin World : Type}.
Variable rt : Runtime Plugin World.

Implicit Types (g : Graph Plugin) (st : Proc World) (ps : list Plugin).

Lemma DownloadOrCache_eq (p : Plugin) st :
  DownloadOrCache rt p st =
    (Val (fst (vscode_DownloadOrCache rt p (world st))),
     mkProc (heap st) (snd (vscode_DownloadOrCache rt p (world st)))
            (diag st)).
Proof.
  unfold DownloadOrCache.
  now destruct (vscode_DownloadOrCache rt p (world st)).
Qed.

(** The loop returns, and touches only the world. *)
Lemma compileVSCode_loop_returns ps inputs st :
  exists r w,
    compileVSCode_loop rt ps inputs st =
      (Val r, mkProc (heap st) w (diag st)).
Proof.
  revert inputs st. induction ps as [|p ps IH]; intros inputs st.
  - exists (Ok inputs), (world st). now destruct st.
  - cbn [compileVSCode_loop]. unfold bind. rewrite DownloadOrCache_eq.
    destruct (fst (vscode_DownloadOrCache rt p (world st))) as [e|].
    + eexists _, _. reflexivity.
    + destruct (IH (inputs ++ [extension rt p])
                   (mkProc (heap st)
                      (snd (vscode_DownloadOrCache rt p (world st)))
                      (diag st))) as (r & w & Hr).
      exists r, w. exact Hr.
Qed.

Lemma compileVSCode_returns g st :
  exists r w,
    compileVSCode rt g st = (Val r, mkProc (heap st) w (diag st)) /\
    (r = Ok None <-> VSCodePlugins g = []).
Proof.
  unfold compileVSCode.
  destruct (VSCodePlugins g) as [|p ps] eqn:Hps.
  - exists (Ok None), (world st). split; [now destruct st | tauto].
  - cbn [length Nat.eqb]. unfold bind.
    destruct (compileVSCode_loop_returns (p :: ps) [] st) as (r & w & Hr).
    rewrite Hr. destruct r as [inputs|e].
    + eexists _, _. split; [reflexivity|]. split; discriminate.
    + eexists _, _. split; [reflexivity|]. split; discriminate.
Qed.

(** The first failing download ends the loop: the plugins before it have
    been fetched, the error is returned as the collaborator gave it, and
    the world is the one that failed attempt left. *)
Lemma compileVSCode_loop_stops (p : Plugin) ps inputs st e w :
  vscode_DownloadOrCache rt p (world st) = (Some e, w) ->
  compileVSCode_loop rt (p :: ps) inputs st =
    (Val (Err e), mkProc (heap st) w (diag st)).
Proof.
  intros H. cbn [compileVSCode_loop]. unfold bind.
  rewrite DownloadOrCache_eq, H. reflexivity.
Qed.

Lemma compileVSCode_loop_step (p : Plugin) ps inputs st w :
  vscode_DownloadOrCache rt p (world st) = (None, w) ->
  compileVSCode_loop rt (p :: ps) inputs st =
    compileVSCode_loop rt ps (inputs ++ [extension rt p])
      (mkProc (heap st) w (diag st)).
Proof.
  intros H. cbn [compileVSCode_loop]. unfold bind.
  rewrite DownloadOrCache_eq, H. reflexivity.
Qed.

(** With stable downloads, the answers the collaborator would give are
    the same after the loop as before it, and two runs from worlds that
    answer alike return alike. *)
Lemma compileVSCode_loop_answers ps inputs st :
  stable_downloads rt ->
  forall q,
    fst (vscode_DownloadOrCache rt q
           (world (snd (compileVSCode_loop rt ps inputs st)))) =
    fst (vscode_DownloadOrCache rt q (world st)).
Proof.
  intros Hst. revert inputs st.
  induction ps as [|p ps IH]; intros inputs st q; [reflexivity|].
  cbn [compileVSCode_loop]. unfold bind. rewrite DownloadOrCache_eq.
  destruct (fst (vscode_DownloadOrCache rt p (world st))) as [e|].
  - simpl. apply Hst.
  - rewrite IH. simpl. apply Hst.
Qed.

Lemma compileVSCode_loop_agree ps inputs sta stb :
  stable_downloads rt ->
  (forall q, fst (vscode_DownloadOrCache rt q (world sta)) =
             fst (vscode_DownloadOrCache rt q (world stb))) ->
  fst (compileVSCode_loop rt ps inputs sta) =
  fst (compileVSCode_loop rt ps inputs stb).
Proof.
  intros Hst. revert inputs sta stb.
  induction ps as [|p ps IH]; intros inputs sta stb Hw; [reflexivity|].
  cbn [compileVSCode_loop]. unfold bind. rewrite !DownloadOrCache_eq.
  rewrite (Hw p).
  destruct (fst (vscode_DownloadOrCache rt p (world stb))) as [e|];
    [reflexivity|].
  apply IH. intros q. simpl. now rewrite !Hst.
Qed.

End Plugins.

(** ** The graph assembler *)

Section Assembler.
Context {Plugin World : Type}.
Variable rt : Runtime Plugin World.

Implicit Types (g : Graph Plugin) (st : Proc World) (base : State).

(** After base selection every stage returns; the heap is only read. *)
Lemma Compile_rest_chain g base st :
  exists aptStage st2 builtinStage mirrorStage st4 language user
         toolStage r st',
    returns (compileUbuntuAPT rt g base) st aptStage st2 /\
    returns (compileBuiltinSystemPackages g aptStage) st2 builtinStage st2 /\
    returns (compilePyPIMirror rt g builtinStage) st2 mirrorStage st4 /\
    returns (compilePyPIPackages g mirrorStage) st4 language st4 /\
    returns (compileSystemPackages g aptStage) st4 user st4 /\
    returns (copyMidiSSHServer rt g) st4 toolStage st4 /\
    returns (compileVSCode rt g) st4 r st' /\
    (r = Ok None <-> VSCodePlugins g = []) /\
    (heap st2 = heap st /\ heap st4 = heap st /\ heap st' = heap st) /\
    world st4 = world st /\
    Compile_rest rt g base st =
      (Val (merged aptStage user language toolStage r), st').
Proof.
  destruct (compileUbuntuAPT_returns rt g base st) as (apt & d2 & H2).
  set (st2 := mkProc (heap st) (world st) d2) in *.
  pose proof (compileBuiltinSystemPackages_reads g apt st2) as H3.
  set (builtin := if len (BuiltinSystemPackages g) =? 0 then apt else _)
    in H3.
  destruct (compilePyPIMirror_returns rt g builtin st2) as (mir & d4 & H4).
  set (st4 := mkProc (heap st2) (world st2) d4) in *.
  pose proof (compilePyPIPackages_reads g mir st4) as H5.
  set (lang := if len (PyPIPackages g) =? 0 then mir else _) in H5.
  pose proof (compileSystemPackages_reads g apt st4) as H6.
  set (sys := if len (SystemPackages g) =? 0 then apt else _) in H6.
  destruct (compileVSCode_returns rt g st4) as (r & w & Hr & Hnone).
  exists apt, st2, builtin, mir, st4, lang, sys,
    (File Scratch (Copy (Image (sshImage rt))
                        "usr/bin/midi-ssh" "/var/midi/bin/midi-ssh" true)),
    r, (mkProc (heap st4) w (diag st4)).
  unfold returns.
  repeat match goal with |- _ /\ _ => split end;
    try assumption; try reflexivity; try (apply Hnone).
  unfold Compile_rest, bind.
  rewrite H2, H3, H4, H5, H6. unfold copyMidiSSHServer, ret.
  rewrite Hr. destruct r as [[v|]|e]; reflexivity.
Qed.

End Assembler.

Section AssemblerFacts.
Context {Plugin World : Type}.
Variable rt : Runtime Plugin World.

Implicit Types (g : Graph Plugin) (st : Proc World) (base : State).

(** A returned state comes out of the specified composition. *)
Lemma Compile_ok_assembly g st s st' :
  Compile rt g st = (Val (Ok s), st') -> assembly rt g st s st'.
Proof.
  unfold Compile, bind.
  destruct (compileBase rt g st) as [[[base g1]|msg] st1] eqn:Hb;
    [|discriminate].
  destruct (compileBase_fields rt g st base g1 st1 Hb) as (Hg1 & _ & _).
  assert (Hps : VSCodePlugins g1 = VSCodePlugins g)
    by (rewrite Hg1; reflexivity).
  destruct (Compile_rest_chain rt g1 base st1)
    as (apt & st2 & builtin & mir & st4 & lang & user & tool & r & st7
        & H2 & H3 & H4 & H5 & H6 & H7 & H8 & Hnone & _ & _ & Hrest).
  rewrite Hrest. rewrite Hps in Hnone.
  destruct r as [o|e]; cbn [merged]; [|discriminate].
  intros [= <- <-].
  exists base, g1, st1, apt, st2, builtin, st2, mir, st4, lang, st4,
    user, st4, tool, st4, o.
  repeat match goal with |- _ /\ _ => split end;
    try assumption; try reflexivity.
  split; [intros ->; now apply Hnone|].
  intros H. apply Hnone in H. congruence.
Qed.

(** Conversely, a composition in the specified order is what [Compile]
    returns. *)
Lemma assembly_Compile g st s st' :
  assembly rt g st s st' -> Compile rt g st = (Val (Ok s), st').
Proof.
  intros (base & g1 & st1 & apt & st2 & builtin & st3 & mir & st4
          & lang & st5 & user & st6 & tool & st7 & o
          & Hb & H2 & H3 & H4 & H5 & H6 & H7 & H8 & _ & ->).
  unfold returns in *. unfold Compile, bind. rewrite Hb.
  unfold Compile_rest, bind. rewrite H2, H3, H4, H5, H6, H7, H8.
  now destruct o.
Qed.


(** The installers' results, read off their [returns] facts. *)
Lemma returns_language g root st language st' :
  returns (compilePyPIPackages g root) st language st' ->
  len (PyPIPackages g) = 0 -> language = root.
Proof.
  unfold returns. rewrite compilePyPIPackages_reads. intros [= <- _] H.
  now rewrite H.
Qed.

Lemma returns_user g root st user st' :
  returns (compileSystemPackages g root) st user st' ->
  len (SystemPackages g) = 0 -> user = root.
Proof.
  unfold returns. rewrite compileSystemPackages_reads. intros [= <- _] H.
  now rewrite H.
Qed.

Lemma returns_builtin g root st builtin st' :
  returns (compileBuiltinSystemPackages g root) st builtin st' ->
  len (BuiltinSystemPackages g) = 0 -> builtin = root.
Proof.
  unfold returns. rewrite compileBuiltinSystemPackages_reads.
  intros [= <- _] H. now rewrite H.
Qed.

Lemma returns_mirror g root st mirror st' :
  returns (compilePyPIMirror rt g root) st mirror st' ->
  PyPIMirror g = None -> mirror = root.
Proof.
  unfold returns, compilePyPIMirror. intros H Hn. rewrite Hn in H.
  now injection H.
Qed.

(** The shapes of the base and of the source stage: an image, or the merge
    of an image and the source layer; never a command. *)
Lemma compileBase_is_image g st base g1 st1 :
  compileBase rt g st = (Val (base, g1), st1) ->
  exists name, base = Image name.
Proof.
  destruct (CUDA g) as [c|] eqn:H1, (CUDNN g) as [d|] eqn:H2.
  - rewrite (compileBase_both rt g st c d H1 H2). intros [= <- _ _].
    eexists. reflexivity.
  - rewrite compileBase_one_sided by (now rewrite H1, H2). discriminate.
  - rewrite compileBase_one_sided by (now rewrite H1, H2). discriminate.
  - rewrite (compileBase_none rt g st H1 H2). intros [= <- _ _].
    eexists. reflexivity.
Qed.

Lemma returns_apt_shape g name st apt st2 :
  returns (compileUbuntuAPT rt g (Image name)) st apt st2 ->
  apt = Image name \/ exists layer, apt = Merge [Image name; layer].
Proof.
  unfold returns, compileUbuntuAPT.
  destruct (UbuntuAPTSource g) as [src|].
  - intros [= <- _]. right. eexists. reflexivity.
  - intros [= <- _]. now left.
Qed.

(** An installer with a non-empty list returns a command on its root. *)
Lemma returns_user_run g root st user st' :
  returns (compileSystemPackages g root) st user st' ->
  len (SystemPackages g) <> 0 -> exists cmd ms, user = Run root cmd ms.
Proof.
  unfold returns. rewrite compileSystemPackages_reads. intros [= <- _] H.
  apply Nat.eqb_neq in H. rewrite H. eexists _, _. reflexivity.
Qed.

Lemma returns_builtin_run g root st builtin st' :
  returns (compileBuiltinSystemPackages g root) st builtin st' ->
  len (BuiltinSystemPackages g) <> 0 ->
  exists cmd ms, builtin = Run root cmd ms.
Proof.
  unfold returns. rewrite compileBuiltinSystemPackages_reads.
  intros [= <- _] H.
  apply Nat.eqb_neq in H. rewrite H. eexists _, _. reflexivity.
Qed.

Lemma returns_mirror_merge g root st mirror st' m :
  returns (compilePyPIMirror rt g root) st mirror st' ->
  PyPIMirror g = Some m -> exists layer, mirror = Merge [root; layer].
Proof.
  unfold returns, compilePyPIMirror. intros H Hm. rewrite Hm in H.
  injection H as <- _. eexists. reflexivity.
Qed.

(** The mirror stage is the source stage itself exactly when the built-in
    installer and the mirror injector both pass their input through. *)
Lemma mirror_stage_is_apt_stage g name st apt st2 builtin mirror st4 :
  returns (compileUbuntuAPT rt g (Image name)) st apt st2 ->
  returns (compileBuiltinSystemPackages g apt) st2 builtin st2 ->
  returns (compilePyPIMirror rt g builtin) st2 mirror st4 ->
  mirror = apt <->
  len (BuiltinSystemPackages g) = 0 /\ PyPIMirror g = None.
Proof.
  intros H2 H3 H4. split.
  - intros Heq.
    pose proof (returns_apt_shape g name st apt st2 H2) as Hshape.
    destruct (PyPIMirror g) as [m|] eqn:Hm.
    + exfalso.
      destruct (returns_mirror_merge g builtin st2 mirror st4 m H4 Hm)
        as (layer & Hmir).
      rewrite Heq in Hmir.
      destruct Hshape as [Ha | (l0 & Ha)]; rewrite Ha in Hmir;
        [discriminate|].
      injection Hmir as Hbu _.
      destruct (Nat.eq_dec (len (BuiltinSystemPackages g)) 0) as [Hz|Hnz].
      * rewrite (returns_builtin g apt st2 builtin st2 H3 Hz), Ha in Hbu.
        discriminate.
      * destruct (returns_builtin_run g apt st2 builtin st2 H3 Hnz)
          as (cmd & ms & Hrun).
        rewrite Hrun in Hbu. discriminate.
    + split; [|reflexivity].
      rewrite (returns_mirror g builtin st2 mirror st4 H4 Hm) in Heq.
      destruct (Nat.eq_dec (len (BuiltinSystemPackages g)) 0) as [Hz|Hnz];
        [exact Hz|exfalso].
      destruct (returns_builtin_run g apt st2 builtin st2 H3 Hnz)
        as (cmd & ms & Hrun).
      rewrite Hrun in Heq.
      destruct Hshape as [Ha | (l0 & Ha)]; rewrite Ha in Heq; discriminate.
  - intros (Hz & Hm).
    rewrite (returns_mirror g builtin st2 mirror st4 H4 Hm).
    exact (returns_builtin g apt st2 builtin st2 H3 Hz).
Qed.

(** C10, as the code has it.  When [Compile] returns a state, the list
    handed to the final merge has four entries if no plugin was requested
    and five otherwise, whatever the package lists hold.  With an empty
    user system package list the second entry is the diff of the source
    stage against itself, and it is so only then.  With an empty language
    package list the third entry is the diff of the source stage against
    the mirror stage, which carries the built-in install and the mirror
    file; it is the diff of the source stage against itself if and only if,
    besides, the built-in list is empty after base selection and no mirror
    is set. *)
Theorem merge_list_entries g st s st' :
  Compile rt g st = (Val (Ok s), st') ->
  length (merge_inputs s) = (if length (VSCodePlugins g) =? 0 then 4 else 5)
  /\
  exists base g1 st1 aptStage st2 builtinStage mirrorStage st4
         systemDiff languageDiff toolStage rest,
    returns (compileBase rt g) st (base, g1) st1 /\
    returns (compileUbuntuAPT rt g1 base) st1 aptStage st2 /\
    returns (compileBuiltinSystemPackages g1 aptStage) st2
            builtinStage st2 /\
    returns (compilePyPIMirror rt g1 builtinStage) st2 mirrorStage st4 /\
    merge_inputs s =
      [aptStage; systemDiff; languageDiff; toolStage] ++ rest /\
    (len (SystemPackages g) = 0 -> systemDiff = Diff aptStage aptStage) /\
    (len (PyPIPackages g) = 0 ->
       languageDiff = Diff aptStage mirrorStage) /\
    (len (BuiltinSystemPackages g1) = 0 -> PyPIMirror g = None ->
       mirrorStage = aptStage) /\
    (systemDiff = Diff aptStage aptStage <-> len (SystemPackages g) = 0) /\
    (mirrorStage = aptStage <->
       len (BuiltinSystemPackages g1) = 0 /\ PyPIMirror g = None) /\
    (len (PyPIPackages g) = 0 ->
       (languageDiff = Diff aptStage aptStage <->
          len (BuiltinSystemPackages g1) = 0 /\ PyPIMirror g = None)).
Proof.
  intros Hc. apply Compile_ok_assembly in Hc.
  destruct Hc as (base & g1 & st1 & apt & st2 & builtin & st3 & mir & st4
                  & lang & st5 & user & st6 & tool & st7 & o
                  & Hb & H2 & H3 & H4 & H5 & H6 & _ & _ & Hnone & ->).
  destruct (compileBase_fields rt g st base g1 st1 Hb) as (Hg1 & _ & _).
  destruct (compileBase_is_image g st base g1 st1 Hb) as (name & ->).
  assert (Hsys : SystemPackages g1 = SystemPackages g)
    by (rewrite Hg1; reflexivity).
  assert (Hpy : PyPIPackages g1 = PyPIPackages g)
    by (rewrite Hg1; reflexivity).
  assert (Hmi : PyPIMirror g1 = PyPIMirror g)
    by (rewrite Hg1; reflexivity).
  assert (Hst3 : st3 = st2).
  { unfold returns in H3. rewrite compileBuiltinSystemPackages_reads in H3.
    now injection H3. }
  subst st3.
  pose proof (mirror_stage_is_apt_stage g1 name st1 apt st2 builtin mir st4
                H2 H3 H4) as Hmirror.
  rewrite Hmi in Hmirror.
  assert (Huser : Diff apt user = Diff apt apt <->
                  len (SystemPackages g) = 0).
  { rewrite <- Hsys. split.
    - intros [= Hu].
      destruct (Nat.eq_dec (len (SystemPackages g1)) 0) as [Hz|Hnz];
        [exact Hz|exfalso].
      destruct (returns_user_run g1 apt st5 user st6 H6 Hnz)
        as (cmd & ms & Hrun).
      rewrite Hrun in Hu.
      destruct (returns_apt_shape g1 name st1 apt st2 H2)
        as [Ha | (l0 & Ha)]; rewrite Ha in Hu; discriminate.
    - intros H. now rewrite (returns_user g1 apt st5 user st6 H6 H). }
  split.
  - cbn [merge_inputs]. rewrite length_app. cbn [length].
    destruct (VSCodePlugins g) as [|p ps].
    + destruct Hnone as [_ ->]; reflexivity.
    + destruct o as [v|]; [reflexivity|].
      destruct Hnone as [Hn _]. specialize (Hn eq_refl). discriminate.
  - exists (Image name), g1, st1, apt, st2, builtin, mir, st4,
      (Diff apt user), (Diff apt lang), tool, (option_list o).
    repeat match goal with |- _ /\ _ => split end;
      try assumption; try reflexivity.
    + apply Huser.
    + intros H. rewrite <- Hpy in H.
      now rewrite (returns_language g1 mir st4 lang st5 H5 H).
    + intros Hbl Hm. apply Hmirror. now split.
    + intros H. rewrite <- Hpy in H.
      rewrite (returns_language g1 mir st4 lang st5 H5 H).
      rewrite <- Hmirror. split; [now intros [= ->] | now intros ->].
Qed.

(** C2, as the code has it.  With no user system packages, no language
    packages, no plugins, no GPU versions and no overrides, [Compile]
    returns the merge of the baseline image, two diffs against it and the
    auxiliary tool layer, and changes nothing in the process.  No file is
    written, so there is no custom source or mirror layer, and neither the
    user system nor the language installer runs.  The built-in installer
    still runs whenever the built-in list is not empty: its update and
    install command is the one command of the graph, inside the language
    diff. *)
Theorem bare_descriptor_graph g st :
  len (SystemPackages g) = 0 ->
  len (PyPIPackages g) = 0 ->
  VSCodePlugins g = [] ->
  CUDA g = None -> CUDNN g = None ->
  UbuntuAPTSource g = None -> PyPIMirror g = None ->
  let base := Image "docker.io/library/python:3.8" in
  let tool := File Scratch (Copy (Image (sshImage rt)) "usr/bin/midi-ssh"
                                 "/var/midi/bin/midi-ssh" true) in
  exists builtinStage s,
    compileBuiltinSystemPackages g base st = (Val builtinStage, st) /\
    s = Merge [base; Diff base base; Diff base builtinStage; tool] /\
    Compile rt g st = (Val (Ok s), st) /\
    mkfiles s = [] /\
    (len (BuiltinSystemPackages g) = 0 -> run_cmds s = []) /\
    (len (BuiltinSystemPackages g) <> 0 ->
       run_cmds s =
         ["sh -c " +:+ dquote +:+
          "apt-get update && apt-get install -y --no-install-recommends"
          +:+ listing (elems (heap st) (BuiltinSystemPackages g))
          +:+ dquote]).
Proof.
  intros Hsys Hpy Hps Hc Hd Hsrc Hmir base tool.
  eexists _, _. split; [apply compileBuiltinSystemPackages_reads|].
  split; [reflexivity|]. split.
  - unfold Compile, bind. rewrite (compileBase_none rt g st Hc Hd).
    unfold Compile_rest, bind.
    unfold compileUbuntuAPT. rewrite Hsrc. unfold ret at 1.
    rewrite compileBuiltinSystemPackages_reads.
    unfold compilePyPIMirror. rewrite Hmir. unfold ret at 1.
    rewrite compilePyPIPackages_reads, compileSystemPackages_reads.
    rewrite Hsys, Hpy. cbn [Nat.eqb].
    unfold copyMidiSSHServer, ret at 1.
    unfold compileVSCode. rewrite Hps. reflexivity.
  - destruct (len (BuiltinSystemPackages g)) as [|n] eqn:Hl;
      cbn [Nat.eqb]; repeat split; try reflexivity;
      intros H; congruence.
Qed.

Lemma compileBase_returns g st :
  ~ one_sided (CUDA g) (CUDNN g) ->
  exists base g1 st1, compileBase rt g st = (Val (base, g1), st1).
Proof.
  intros Hn.
  destruct (CUDA g) as [c|] eqn:H1, (CUDNN g) as [d|] eqn:H2;
    try (exfalso; apply Hn; exact I).
  - rewrite (compileBase_both rt g st c d H1 H2). eexists _, _, _.
    reflexivity.
  - rewrite (compileBase_none rt g st H1 H2). eexists _, _, _.
    reflexivity.
Qed.

Lemma compileVSCode_second_fails g st (p1 p2 p3 : Plugin) e w1 w2 :
  VSCodePlugins g = [p1; p2; p3] ->
  vscode_DownloadOrCache rt p1 (world st) = (None, w1) ->
  vscode_DownloadOrCache rt p2 w1 = (Some e, w2) ->
  compileVSCode rt g st = (Val (Err e), mkProc (heap st) w2 (diag st)).
Proof.
  intros Hps H1 H2. unfold compileVSCode. rewrite Hps.
  cbn [length Nat.eqb]. unfold bind.
  rewrite (compileVSCode_loop_step rt p1 [p2; p3] [] st w1 H1).
  rewrite (compileVSCode_loop_stops rt p2 [p3] _
             (mkProc (heap st) w1 (diag st)) e w2 H2).
  reflexivity.
Qed.

(** C5, as the code has it.  When the second of three plugins cannot be
    materialized, [compileVSCode] returns the collaborator's error as it
    is and [Compile] returns it wrapped once, with the step as context;
    no state is returned, and the world is the one the failed attempt
    left, so the third plugin was never asked for.  The assembler adds no
    plugin identifier: the contexts of the reported error are the step
    followed by whatever contexts the collaborator's error already had,
    and its cause is the collaborator's. *)
Theorem second_plugin_failure_aborts g st (p1 p2 p3 : Plugin) e w1 w2 :
  VSCodePlugins g = [p1; p2; p3] ->
  ~ one_sided (CUDA g) (CUDNN g) ->
  vscode_DownloadOrCache rt p1 (world st) = (None, w1) ->
  vscode_DownloadOrCache rt p2 w1 = (Some e, w2) ->
  compileVSCode rt g st = (Val (Err e), mkProc (heap st) w2 (diag st)) /\
  exists reported st',
    Compile rt g st = (Val (Err reported), st') /\
    world st' = w2 /\
    reported = Wrap e "failed to get vscode plugins" /\
    contexts reported = "failed to get vscode plugins" :: contexts e /\
    UnwrapAll reported = UnwrapAll e /\
    Error reported = "failed to get vscode plugins: " +:+ Error e.
Proof.
  intros Hps Hgpu H1 H2.
  split; [now apply (compileVSCode_second_fails g st p1 p2 p3 e w1 w2)|].
  destruct (compileBase_returns g st Hgpu) as (base & g1 & st1 & Hb).
  destruct (compileBase_fields rt g st base g1 st1 Hb) as (Hg1 & Hw & _).
  assert (Hps1 : VSCodePlugins g1 = [p1; p2; p3])
    by (rewrite Hg1; exact Hps).
  destruct (Compile_rest_chain rt g1 base st1)
    as (apt & st2 & builtin & mir & st4 & lang & user & tool & r & st'
        & _ & _ & _ & _ & _ & _ & H8 & _ & _ & Hw4 & Hrest).
  unfold returns in H8.
  rewrite (compileVSCode_second_fails g1 st4 p1 p2 p3 e w1 w2 Hps1) in H8
    by (try rewrite Hw4, Hw; assumption).
  injection H8 as <- <-.
  exists (Wrap e "failed to get vscode plugins"),
    (mkProc (heap st4) w2 (diag st4)).
  split.
  - unfold Compile, bind. rewrite Hb. exact Hrest.
  - repeat split.
Qed.

(** *** Compiling twice *)

Lemma compileUbuntuAPT_indep ga gb root sta stb :
  UbuntuAPTSource ga = UbuntuAPTSource gb ->
  fst (compileUbuntuAPT rt ga root sta) =
  fst (compileUbuntuAPT rt gb root stb).
Proof.
  intros H. unfold compileUbuntuAPT. rewrite H.
  now destruct (UbuntuAPTSource gb).
Qed.

Lemma compilePyPIMirror_indep ga gb root sta stb :
  PyPIMirror ga = PyPIMirror gb ->
  fst (compilePyPIMirror rt ga root sta) =
  fst (compilePyPIMirror rt gb root stb).
Proof.
  intros H. unfold compilePyPIMirror. rewrite H.
  now destruct (PyPIMirror gb).
Qed.

Lemma compileVSCode_loop_ok (ps : list Plugin) inputs st l st' :
  compileVSCode_loop rt ps inputs st = (Val (Ok l), st') ->
  l = inputs ++ map (extension rt) ps.
Proof.
  revert inputs st. induction ps as [|p ps IH]; intros inputs st.
  - cbn. intros [= <- _]. now rewrite app_nil_r.
  - cbn [compileVSCode_loop]. unfold bind. rewrite DownloadOrCache_eq.
    destruct (fst (vscode_DownloadOrCache rt p (world st))) as [e|];
      [discriminate|].
    intros H. apply IH in H. rewrite H. cbn [map].
    now rewrite <- app_assoc.
Qed.

(** A returned plugin layer is a function of the plugin list alone. *)
Lemma compileVSCode_ok g st o st' :
  compileVSCode rt g st = (Val (Ok o), st') ->
  o = if length (VSCodePlugins g) =? 0 then None
      else Some (Merge (map (extension rt) (VSCodePlugins g))).
Proof.
  unfold compileVSCode.
  destruct (length (VSCodePlugins g) =? 0); [now intros [= <- _]|].
  unfold bind.
  destruct (compileVSCode_loop rt (VSCodePlugins g) [] st)
    as [[[l|e]|msg] st2] eqn:Hl; try discriminate.
  intros [= <- _]. now rewrite (compileVSCode_loop_ok _ _ _ _ _ Hl).
Qed.

Lemma compileVSCode_agree ga gb sta stb :
  VSCodePlugins ga = VSCodePlugins gb ->
  stable_downloads rt ->
  (forall q, fst (vscode_DownloadOrCache rt q (world sta)) =
             fst (vscode_DownloadOrCache rt q (world stb))) ->
  fst (compileVSCode rt ga sta) = fst (compileVSCode rt gb stb).
Proof.
  intros Hps Hst Hw. unfold compileVSCode. rewrite Hps.
  destruct (length (VSCodePlugins gb) =? 0); [reflexivity|].
  unfold bind.
  pose proof (compileVSCode_loop_agree rt (VSCodePlugins gb) [] sta stb
                Hst Hw) as Hag.
  destruct (compileVSCode_loop_returns rt (VSCodePlugins gb) [] sta)
    as (ra & wa & Ha).
  destruct (compileVSCode_loop_returns rt (VSCodePlugins gb) [] stb)
    as (rb & wb & Hb).
  rewrite Ha, Hb in *. cbn [fst] in Hag. injection Hag as ->.
  now destruct rb.
Qed.

Lemma compileVSCode_answers g st :
  stable_downloads rt ->
  forall q,
    fst (vscode_DownloadOrCache rt q
           (world (snd (compileVSCode rt g st)))) =
    fst (vscode_DownloadOrCache rt q (world st)).
Proof.
  intros Hst q. unfold compileVSCode.
  destruct (length (VSCodePlugins g) =? 0); [reflexivity|].
  unfold bind.
  pose proof (compileVSCode_loop_answers rt (VSCodePlugins g) [] st Hst q)
    as Hq.
  destruct (compileVSCode_loop rt (VSCodePlugins g) [] st)
    as [[[l|e]|msg] st2]; exact Hq.
Qed.

(** Two runs of the stages after base selection, on graphs that differ
    at most in their built-in slice header and in states whose heaps read
    alike through the package slices, build the same stages; they can
    differ only in what plugin materialization returns. *)
Lemma Compile_rest_agree ga gb base sta stb :
  gb = set_BuiltinSystemPackages (BuiltinSystemPackages gb) ga ->
  len (BuiltinSystemPackages ga) = len (BuiltinSystemPackages gb) ->
  elems (heap sta) (BuiltinSystemPackages ga) =
    elems (heap stb) (BuiltinSystemPackages gb) ->
  elems (heap sta) (PyPIPackages ga) = elems (heap stb) (PyPIPackages ga) ->
  elems (heap sta) (SystemPackages ga) =
    elems (heap stb) (SystemPackages ga) ->
  exists apt user lang tool ra rb sta4 stb4 sta' stb',
    Compile_rest rt ga base sta =
      (Val (merged apt user lang tool ra), sta') /\
    Compile_rest rt gb base stb =
      (Val (merged apt user lang tool rb), stb') /\
    world sta4 = world sta /\ world stb4 = world stb /\
    compileVSCode rt ga sta4 = (Val ra, sta') /\
    compileVSCode rt gb stb4 = (Val rb, stb') /\
    heap sta' = heap sta /\ heap stb' = heap stb.
Proof.
  intros Hgb Hlen Hbu Hpy Hsy.
  assert (Fsrc : UbuntuAPTSource gb = UbuntuAPTSource ga)
    by (rewrite Hgb; reflexivity).
  assert (Fmir : PyPIMirror gb = PyPIMirror ga)
    by (rewrite Hgb; reflexivity).
  assert (Fpy : PyPIPackages gb = PyPIPackages ga)
    by (rewrite Hgb; reflexivity).
  assert (Fsy : SystemPackages gb = SystemPackages ga)
    by (rewrite Hgb; reflexivity).
  destruct (Compile_rest_chain rt ga base sta)
    as (apt & sa2 & bua & mia & sa4 & laa & usa & tla & ra & sa'
        & A2 & A3 & A4 & A5 & A6 & A7 & A8 & _
        & (Ah2 & Ah4 & Ah') & Aw & Arest).
  destruct (Compile_rest_chain rt gb base stb)
    as (aptb & sb2 & bub & mib & sb4 & lab & usb & tlb & rb & sb'
        & B2 & B3 & B4 & B5 & B6 & B7 & B8 & _
        & (Bh2 & Bh4 & Bh') & Bw & Brest).
  unfold returns in *.
  assert (Eapt : aptb = apt).
  { pose proof (compileUbuntuAPT_indep gb ga base stb sta Fsrc) as H.
    rewrite A2, B2 in H. now injection H. }
  subst aptb.
  assert (Ebu : bub = bua).
  { rewrite compileBuiltinSystemPackages_reads in A3, B3.
    injection A3 as <-. injection B3 as <-.
    now rewrite Ah2, Bh2, Hlen, Hbu. }
  subst bub.
  assert (Emi : mib = mia).
  { pose proof (compilePyPIMirror_indep gb ga bua sb2 sa2 Fmir) as H.
    rewrite A4, B4 in H. now injection H. }
  subst mib.
  assert (Ela : lab = laa).
  { rewrite compilePyPIPackages_reads in A5, B5.
    injection A5 as <-. injection B5 as <-.
    now rewrite Ah4, Bh4, Fpy, Hpy. }
  subst lab.
  assert (Eus : usb = usa).
  { rewrite compileSystemPackages_reads in A6, B6.
    injection A6 as <-. injection B6 as <-.
    now rewrite Ah4, Bh4, Fsy, Hsy. }
  subst usb.
  assert (Etl : tlb = tla).
  { unfold copyMidiSSHServer, ret in A7, B7. congruence. }
  subst tlb.
  exists apt, usa, laa, tla, ra, rb, sa4, sb4, sa', sb'.
  repeat match goal with |- _ /\ _ => split end; assumption.
Qed.

(** Base selection on the same graph, first on [st] and then on a state
    [st'] whose heap is the one the first run left. *)
Lemma compileBase_twice g st st' :
  graph_ok (heap st) g ->
  heap st' = heap (snd (compileBase rt g st)) ->
  match compileBase rt g st, compileBase rt g st' with
  | (Val (ba, ga), sta), (Val (bb, gb), stb) =>
      ba = bb /\
      gb = set_BuiltinSystemPackages (BuiltinSystemPackages gb) ga /\
      len (BuiltinSystemPackages ga) = len (BuiltinSystemPackages gb) /\
      elems (heap sta) (BuiltinSystemPackages ga) =
        elems (heap stb) (BuiltinSystemPackages gb) /\
      elems (heap sta) (PyPIPackages ga) =
        elems (heap stb) (PyPIPackages ga) /\
      elems (heap sta) (SystemPackages ga) =
        elems (heap stb) (SystemPackages ga) /\
      world sta = world st /\ world stb = world st'
  | (Panic m, _), (Panic m', _) => m = m'
  | _, _ => False
  end.
Proof.
  intros (Hbu & Hpy & Hsy) Hh.
  destruct (CUDA g) as [c|] eqn:H1, (CUDNN g) as [d|] eqn:H2.
  - rewrite (compileBase_both rt g st c d H1 H2) in *.
    rewrite (compileBase_both rt g st' c d H1 H2).
    cbn [snd heap] in Hh. rewrite Hh.
    destruct (append_at_replay (growcap rt) (BuiltinSystemPackages g)
                [Language g; Language g +:+ "-pip"] (heap st) Hbu)
      as (Rl & Re & Rt).
    cbn [heap world BuiltinSystemPackages PyPIPackages SystemPackages
         set_BuiltinSystemPackages].
    repeat match goal with |- _ /\ _ => split end;
      try reflexivity; try (symmetry; assumption).
    + symmetry. apply Rt. apply Hpy.
    + symmetry. apply Rt. apply Hsy.
  - rewrite !compileBase_one_sided by (now rewrite H1, H2). reflexivity.
  - rewrite !compileBase_one_sided by (now rewrite H1, H2). reflexivity.
  - rewrite (compileBase_none rt g st H1 H2) in *.
    rewrite (compileBase_none rt g st' H1 H2).
    cbn [snd] in Hh. rewrite Hh.
    repeat match goal with |- _ /\ _ => split end; try reflexivity.
    now destruct g.
Qed.

(** What the first compilation leaves behind. *)
Lemma Compile_leaves g st :
  heap (snd (Compile rt g st)) = heap (snd (compileBase rt g st)) /\
  (stable_downloads rt ->
   forall q,
     fst (vscode_DownloadOrCache rt q (world (snd (Compile rt g st)))) =
     fst (vscode_DownloadOrCache rt q (world st))).
Proof.
  unfold Compile, bind.
  destruct (compileBase rt g st) as [[[base g1]|msg] st1] eqn:Hb.
  - destruct (compileBase_fields rt g st base g1 st1 Hb) as (_ & Hw & _).
    destruct (Compile_rest_chain rt g1 base st1)
      as (apt & st2 & builtin & mir & st4 & lang & user & tool & r & st'
          & _ & _ & _ & _ & _ & _ & H8 & _ & (_ & _ & Hh') & Hw4 & Hrest).
    rewrite Hrest. cbn [snd]. split; [exact Hh'|].
    intros Hst q. unfold returns in H8.
    pose proof (compileVSCode_answers g1 st4 Hst q) as Hq.
    rewrite H8 in Hq. cbn [snd] in Hq. now rewrite Hq, Hw4, Hw.
  - cbn [snd].
    assert (st1 = st) as ->.
    { pose proof (compileBase_panics rt g st msg st1 Hb) as Hone.
      rewrite (compileBase_one_sided rt g st Hone) in Hb.
      now injection Hb. }
    split; [reflexivity | intros _ q; reflexivity].
Qed.

Lemma Compile_again g st st' :
  graph_ok (heap st) g ->
  heap st' = heap (snd (compileBase rt g st)) ->
  (forall s1 s2,
     fst (Compile rt g st) = Val (Ok s1) ->
     fst (Compile rt g st') = Val (Ok s2) -> s1 = s2) /\
  (stable_downloads rt ->
   (forall q, fst (vscode_DownloadOrCache rt q (world st')) =
              fst (vscode_DownloadOrCache rt q (world st))) ->
   fst (Compile rt g st') = fst (Compile rt g st)).
Proof.
  intros Hok Hh.
  pose proof (compileBase_twice g st st' Hok Hh) as Ht.
  unfold Compile, bind.
  destruct (compileBase rt g st) as [[[ba ga]|m] sta] eqn:Ha;
    destruct (compileBase rt g st') as [[[bb gb]|m'] stb] eqn:Hb;
    try contradiction.
  - destruct Ht as (<- & Hgb & Hlen & Hbu & Hpy & Hsy & Hwa & Hwb).
    destruct (Compile_rest_agree ga gb ba sta stb Hgb Hlen Hbu Hpy Hsy)
      as (apt & user & lang & tool & ra & rb & sta4 & stb4 & sta' & stb'
          & Ea & Eb & Wa & Wb & Va & Vb & _ & _).
    rewrite Ea, Eb. cbn [fst].
    assert (Hps : VSCodePlugins gb = VSCodePlugins ga)
      by (rewrite Hgb; reflexivity).
    split.
    + intros s1 s2 E1 E2.
      destruct ra as [oa|ea]; [|discriminate].
      destruct rb as [ob|eb]; [|discriminate].
      apply compileVSCode_ok in Va. apply compileVSCode_ok in Vb.
      rewrite Hps in Vb. rewrite <- Va in Vb. subst ob.
      cbn [merged] in E1, E2. congruence.
    + intros Hst Hw.
      pose proof (compileVSCode_agree gb ga stb4 sta4 Hps Hst) as Hag.
      rewrite Va, Vb in Hag. cbn [fst] in Hag.
      assert (Hr : Val rb = Val ra).
      { apply Hag. intros q. now rewrite Wa, Wb, Hwa, Hwb. }
      injection Hr as ->. reflexivity.
  - subst m'. split; [discriminate | reflexivity].
Qed.

(** C4. Compiling the same descriptor twice, the second time in the
    process state the first compilation left, gives the same result.  Two
    returned states are equal outright; and when the collaborator's
    answers do not depend on earlier download attempts, the second
    compilation returns, fails or panics exactly as the first did.  This
    covers GPU descriptors: [Compile] works on its own copy of the graph,
    so the packages appended by base selection are not in the caller's
    list when the second compilation starts. *)
Theorem Compile_twice_same g st :
  graph_ok (heap st) g ->
  (forall s1 s2,
     fst (Compile rt g st) = Val (Ok s1) ->
     fst (Compile rt g (snd (Compile rt g st))) = Val (Ok s2) ->
     s1 = s2) /\
  (stable_downloads rt ->
   fst (Compile rt g (snd (Compile rt g st))) = fst (Compile rt g st)).
Proof.
  intros Hok.
  destruct (Compile_leaves g st) as (Hh & Hw).
  destruct (Compile_again g st (snd (Compile rt g st)) Hok Hh)
    as (Hsucc & Hall).
  split; [exact Hsucc|].
  intros Hst. apply Hall; [exact Hst | exact (Hw Hst)].
Qed.

End AssemblerFacts.

(** ** The framework clone of the shell manager *)

Section ManagerFacts.
Context {FS : Type}.
Variable rt : Shell.Runtime FS.

(** C9. If the cache directory of the framework exists,
    [DownloadOrCache] returns no error, clones nothing and leaves the
    system as it is.  Hence, provided a clone that reports success has
    created its target directory, a second invocation after a successful
    first one is a no-op that returns no error. *)
Theorem framework_clone_idempotent (st : Shell.Sys FS) :
  (Shell.fileutil_DirExists rt (Shell.OHMyZSHDir rt) (Shell.fs st)
     = (true, None) ->
   Shell.DownloadOrCache rt st = (None, st)) /\
  ((forall c fs0 fs1,
      Shell.git_PlainClone rt c fs0 = (None, fs1) ->
      Shell.fileutil_DirExists rt (Shell.clone_path c) fs1 = (true, None)) ->
   forall st1,
     Shell.DownloadOrCache rt st = (None, st1) ->
     Shell.DownloadOrCache rt st1 = (None, st1)).
Proof.
  split.
  - intros H. unfold Shell.DownloadOrCache. now rewrite H.
  - intros Hclone st1. unfold Shell.DownloadOrCache at 1.
    destruct (Shell.fileutil_DirExists rt (Shell.OHMyZSHDir rt)
                (Shell.fs st)) as [[|] [err|]] eqn:Hex;
      try discriminate.
    + intros [= <-]. unfold Shell.DownloadOrCache. now rewrite Hex.
    + unfold Shell.PlainClone.
      destruct (Shell.git_PlainClone rt
                  (Shell.mkCloneCall (Shell.OHMyZSHDir rt) false
                     "https://github.com/ohmyzsh/ohmyzsh")
                  (Shell.fs st)) as [[err|] fs1] eqn:Hc;
        [discriminate|].
      intros [= <-]. apply Hclone in Hc. cbn [Shell.clone_path] in Hc.
      unfold Shell.DownloadOrCache. cbn [Shell.fs]. now rewrite Hc.
Qed.

End ManagerFacts.

(** * The properties on concrete descriptors *)

(** [NewGraph], run from the empty process, builds the bare descriptor. *)
Lemma NewGraph_demo :
  NewGraph Demo.rt Demo.boot = (Val (Demo.graph None None []), Demo.proc).
Proof. reflexivity. Qed.

Lemma demo_slices_ok (cuda cudnn : option string) (plugins : list string) :
  graph_ok (heap Demo.proc) (Demo.graph cuda cudnn plugins).
Proof. repeat split; cbn; lia. Qed.

Lemma demo_stable_downloads : stable_downloads Demo.rt.
Proof. intros p q w. reflexivity. Qed.

(** C2 fails as stated: the descriptor [NewGraph] builds has no user system
    packages, no language packages, no plugins, no GPU versions and no
    overrides, and its graph still runs the built-in install. *)
Lemma bare_descriptor_runs_builtin_install :
  len (SystemPackages (Demo.graph None None [])) = 0 /\
  len (PyPIPackages (Demo.graph None None [])) = 0 /\
  VSCodePlugins (Demo.graph None None []) = [] /\
  CUDA (Demo.graph None None []) = None /\
  CUDNN (Demo.graph None None []) = None /\
  UbuntuAPTSource (Demo.graph None None []) = None /\
  PyPIMirror (Demo.graph None None []) = None /\
  exists s,
    Compile Demo.rt (Demo.graph None None []) Demo.proc
      = (Val (Ok s), Demo.proc) /\
    run_cmds s =
      ["sh -c " +:+ dquote +:+
       "apt-get update && apt-get install -y --no-install-recommends curl openssh-client"
       +:+ dquote] /\
    run_cmds s <> [].
Proof.
  do 7 (split; [reflexivity|]).
  eexists. split; [reflexivity|]. split; [reflexivity|]. discriminate.
Qed.

Lemma bare_descriptor_graph_witness :
  (len (SystemPackages (Demo.graph None None [])) = 0 /\
   len (PyPIPackages (Demo.graph None None [])) = 0) /\
  exists builtinStage s,
    compileBuiltinSystemPackages (Demo.graph None None [])
      (Image "docker.io/library/python:3.8") Demo.proc
      = (Val builtinStage, Demo.proc) /\
    s = Merge [Image "docker.io/library/python:3.8";
               Diff (Image "docker.io/library/python:3.8")
                    (Image "docker.io/library/python:3.8");
               Diff (Image "docker.io/library/python:3.8") builtinStage;
               File Scratch
                 (Copy (Image (sshImage Demo.rt)) "usr/bin/midi-ssh"
                       "/var/midi/bin/midi-ssh" true)] /\
    Compile Demo.rt (Demo.graph None None []) Demo.proc
      = (Val (Ok s), Demo.proc) /\
    mkfiles s = [].
Proof.
  split; [split; reflexivity|].
  destruct (bare_descriptor_graph Demo.rt (Demo.graph None None [])
              Demo.proc eq_refl eq_refl eq_refl eq_refl eq_refl eq_refl
              eq_refl)
    as (b & s & H1 & H2 & H3 & H4 & _).
  exists b, s. repeat split; assumption.
Defined.

(** C3 fails as stated: base selection invoked twice on one GPU descriptor
    leaves the language and its package manager in the built-in list
    twice. *)
Lemma base_selection_twice_appends_twice :
  exists g' st',
    compileBase_times Demo.rt 2 (Demo.graph (Some "11.6") (Some "8") [])
      Demo.proc = (Val g', st') /\
    elems (heap st') (BuiltinSystemPackages g') =
      ["curl"; "openssh-client";
       "python"; "python-pip"; "python"; "python-pip"] /\
    length (filter (fun p => String.eqb p "python")
              (elems (heap st') (BuiltinSystemPackages g'))) = 2.
Proof. eexists _, _. repeat split. Qed.

Lemma base_selection_appends_per_invocation_witness :
  slice_ok (heap Demo.proc)
    (BuiltinSystemPackages (Demo.graph (Some "11.6") (Some "8") [])) /\
  exists g1 st1,
    compileBase Demo.rt (Demo.graph (Some "11.6") (Some "8") []) Demo.proc
      = (Val (gpu_image "11.6" "8" "ubuntu20.04", g1), st1) /\
    elems (heap st1) (BuiltinSystemPackages g1) =
      ["curl"; "openssh-client"; "python"; "python-pip"].
Proof.
  assert (Hok : slice_ok (heap Demo.proc)
                  (BuiltinSystemPackages
                     (Demo.graph (Some "11.6") (Some "8") [])))
    by (repeat split; cbn; lia).
  split; [exact Hok|].
  destruct (base_selection_appends_per_invocation Demo.rt
              (Demo.graph (Some "11.6") (Some "8") []) Demo.proc
              "11.6" "8" eq_refl eq_refl Hok)
    as ((g1 & st1 & H1 & H2) & _).
  exists g1, st1. split; [exact H1 | exact H2].
Defined.

(** C4 on a GPU descriptor with plugins. *)
Lemma Compile_twice_same_witness :
  graph_ok (heap Demo.proc)
    (Demo.graph (Some "11.6") (Some "8") ["golang.go-0.33.0"]) /\
  stable_downloads Demo.rt /\
  fst (Compile Demo.rt
         (Demo.graph (Some "11.6") (Some "8") ["golang.go-0.33.0"])
         (snd (Compile Demo.rt
                 (Demo.graph (Some "11.6") (Some "8") ["golang.go-0.33.0"])
                 Demo.proc)))
  = fst (Compile Demo.rt
           (Demo.graph (Some "11.6") (Some "8") ["golang.go-0.33.0"])
           Demo.proc).
Proof.
  split; [apply demo_slices_ok|]. split; [apply demo_stable_downloads|].
  apply (Compile_twice_same Demo.rt
           (Demo.graph (Some "11.6") (Some "8") ["golang.go-0.33.0"])
           Demo.proc (demo_slices_ok _ _ _)).
  apply demo_stable_downloads.
Defined.

(** C5 fails as stated: the reported error carries the step, and nowhere
    the identifier of the plugin that failed. *)
Lemma reported_error_omits_plugin :
  exists reported st',
    Compile Demo.rt
      (Demo.graph None None ["golang.go-0.33.0"; Demo.broken; "vscodevim.vim-1.0"])
      Demo.proc = (Val (Err reported), st') /\
    world st' = ["golang.go-0.33.0"; Demo.broken] /\
    Error reported = "failed to get vscode plugins: connection refused" /\
    contains Demo.broken (Error reported) = false /\
    existsb (contains Demo.broken) (contexts reported) = false.
Proof.
  eexists _, _. split; [vm_compute; reflexivity|].
  split; [reflexivity|]. split; [reflexivity|].
  split; vm_compute; reflexivity.
Qed.

Lemma second_plugin_failure_aborts_witness :
  vscode_DownloadOrCache Demo.rt Demo.broken ["golang.go-0.33.0"]
    = (Some (ErrorString "connection refused"),
       ["golang.go-0.33.0"; Demo.broken]) /\
  exists reported st',
    Compile Demo.rt
      (Demo.graph None None ["golang.go-0.33.0"; Demo.broken; "vscodevim.vim-1.0"])
      Demo.proc = (Val (Err reported), st') /\
    world st' = ["golang.go-0.33.0"; Demo.broken] /\
    reported = Wrap (ErrorString "connection refused")
                    "failed to get vscode plugins".
Proof.
  split; [reflexivity|].
  destruct (second_plugin_failure_aborts Demo.rt
              (Demo.graph None None
                 ["golang.go-0.33.0"; Demo.broken; "vscodevim.vim-1.0"])
              Demo.proc "golang.go-0.33.0" Demo.broken "vscodevim.vim-1.0"
              (ErrorString "connection refused")
              ["golang.go-0.33.0"] ["golang.go-0.33.0"; Demo.broken]
              eq_refl (fun H : False => H) eq_refl eq_refl)
    as (_ & reported & st' & H1 & H2 & H3 & _).
  exists reported, st'. repeat split; assumption.
Defined.

(** C6 is not met by the code: with the toolkit version set and the library
    version absent, base selection dereferences the nil library version and
    panics, and so does the whole compilation. *)
Theorem base_selection_panics_on_single_gpu_field :
  compileBase Demo.rt (Demo.graph (Some "11.6") None []) Demo.proc
    = (Panic nil_deref, Demo.proc) /\
  fst (Compile Demo.rt (Demo.graph (Some "11.6") None []) Demo.proc)
    = Panic nil_deref.
Proof. split; reflexivity. Qed.

Lemma builtin_install_command_witness :
  len (BuiltinSystemPackages (Demo.graph None None [])) <> 0 /\
  exists cmd mounts,
    compileBuiltinSystemPackages (Demo.graph None None [])
      (Image "docker.io/library/python:3.8") Demo.proc
      = (Val (Run (Image "docker.io/library/python:3.8") cmd mounts),
         Demo.proc) /\
    fields (listing (elems (heap Demo.proc)
                       (BuiltinSystemPackages (Demo.graph None None []))))
      = ["curl"; "openssh-client"].
Proof.
  assert (Hne : len (BuiltinSystemPackages (Demo.graph None None [])) <> 0)
    by discriminate.
  split; [exact Hne|].
  destruct (builtin_install_command (Demo.graph None None [])
              (Image "docker.io/library/python:3.8") Demo.proc Hne)
    as (cmd & mounts & H1 & _ & H3).
  exists cmd, mounts. split; [exact H1|].
  exact (proj1 (H3 eq_refl)).
Defined.

Lemma absent_configuration_passes_through_witness :
  compileUbuntuAPT Demo.rt (Demo.graph None None []) Scratch Demo.proc
    = (Val Scratch, Demo.proc) /\
  compilePyPIMirror Demo.rt (Demo.graph None None []) Scratch Demo.proc
    = (Val Scratch, Demo.proc) /\
  compilePyPIPackages (Demo.graph None None []) Scratch Demo.proc
    = (Val Scratch, Demo.proc) /\
  compileSystemPackages (Demo.graph None None []) Scratch Demo.proc
    = (Val Scratch, Demo.proc).
Proof.
  destruct (absent_configuration_passes_through Demo.rt
              (Demo.graph None None []) Scratch Demo.proc)
    as (H1 & H2 & H3 & H4).
  split; [apply H1; reflexivity|].
  split; [apply H2; reflexivity|].
  split; [apply H3 | apply H4]; reflexivity.
Defined.

(** C9 on the demonstration file system: the first invocation clones, the
    second finds the directory and does nothing. *)
Lemma framework_clone_idempotent_witness :
  exists st1,
    Shell.DownloadOrCache ShellDemo.rt ShellDemo.boot = (None, st1) /\
    length (Shell.clones st1) = 1 /\
    Shell.DownloadOrCache ShellDemo.rt st1 = (None, st1).
Proof.
  eexists. split; [reflexivity|]. split; [reflexivity|].
  apply (proj2 (framework_clone_idempotent ShellDemo.rt ShellDemo.boot)).
  - intros c fs0 fs1 [= <-]. unfold ShellDemo.rt, ShellDemo.dir_exists.
    cbn. now rewrite String.eqb_refl.
  - reflexivity.
Defined.

(** C10 fails as stated: on the bare descriptor the language package list is
    empty, yet the third entry of the merge list is not a diff of the source
    stage against itself: it holds the built-in install. *)
Lemma empty_language_list_diff_not_empty :
  exists s st',
    Compile Demo.rt (Demo.graph None None []) Demo.proc = (Val (Ok s), st') /\
    len (PyPIPackages (Demo.graph None None [])) = 0 /\
    len (SystemPackages (Demo.graph None None [])) = 0 /\
    length (merge_inputs s) = 4 /\
    forall aptStage,
      merge_inputs s !! 2 <> Some (Diff aptStage aptStage).
Proof.
  eexists _, _. split; [reflexivity|]. repeat split.
  intros aptStage H. cbn in H. injection H as H1 H2.
  rewrite <- H1 in H2. discriminate.
Qed.

Lemma merge_list_entries_witness :
  exists s st',
    Compile Demo.rt (Demo.graph None None ["golang.go-0.33.0"]) Demo.proc
      = (Val (Ok s), st') /\
    length (merge_inputs s) = 5.
Proof.
  pose (c := Compile Demo.rt (Demo.graph None None ["golang.go-0.33.0"])
               Demo.proc).
  assert (H : Compile Demo.rt (Demo.graph None None ["golang.go-0.33.0"])
                Demo.proc
              = (Val (Ok (match fst c with
                          | Val (Ok s) => s
                          | _ => Scratch
                          end)), snd c))
    by (vm_compute; reflexivity).
  eexists _, _. split; [exact H|].
  exact (proj1 (merge_list_entries Demo.rt
                  (Demo.graph None None ["golang.go-0.33.0"]) Demo.proc
                  _ _ H)).
Defined.

(** * Further properties *)

(** ** The language and user system installers *)

Lemma pip_install_listing :
  listing ["pip"; "install"] = String " " "pip install".
Proof. reflexivity. Qed.

Lemma apt_install_listing :
  listing ["apt"; "install"] = String " " "apt install".
Proof. reflexivity. Qed.

Section Installers.
Context {Plugin World : Type}.

Implicit Types (g : Graph Plugin) (st : Proc World) (root : State).

(** X1. For a non-empty language package list the language installer runs
    one command on its root, [pip install] followed by every package once
    and in order, with the pip download cache mounted as a shared persistent
    cache; it changes nothing in the process.  Read back word by word, the
    command is [pip], [install] and the package list. *)
Theorem language_install_command g root st :
  len (PyPIPackages g) <> 0 ->
  compilePyPIPackages g root st =
    (Val (Run root
            ("pip install" +:+ listing (elems (heap st) (PyPIPackages g)))
            [mkMount "/root/.cache/pip" Scratch "//root/.cache/pip"
                     CacheMountShared]),
     st) /\
  (forallb is_word (elems (heap st) (PyPIPackages g)) = true ->
   fields ("pip install" +:+ listing (elems (heap st) (PyPIPackages g)))
   = ["pip"; "install"] ++ elems (heap st) (PyPIPackages g)).
Proof.
  intros Hne. split.
  - rewrite compilePyPIPackages_reads.
    apply Nat.eqb_neq in Hne. now rewrite Hne.
  - intros Hw. rewrite <- fields_leading_blank.
    rewrite <- (string_cons_app " ").
    rewrite <- pip_install_listing, <- listing_app.
    apply fields_listing. rewrite forallb_app. now rewrite Hw.
Qed.

(** X2. For a non-empty user system package list the user system installer
    runs one command on its root, [apt install] followed by every package
    once and in order, with the package cache and the package state
    directories mounted as shared persistent caches.  The command has no
    update step: read back word by word it is [apt], [install] and the
    package list, nothing else. *)
Theorem user_install_command g root st :
  len (SystemPackages g) <> 0 ->
  compileSystemPackages g root st =
    (Val (Run root
            ("apt install" +:+ listing (elems (heap st) (SystemPackages g)))
            [mkMount "/var/cache/apt" Scratch "//var/cache/apt"
                     CacheMountShared;
             mkMount "/var/lib/apt" Scratch "//var/lib/apt"
                     CacheMountShared]),
     st) /\
  (forallb is_word (elems (heap st) (SystemPackages g)) = true ->
   fields ("apt install" +:+ listing (elems (heap st) (SystemPackages g)))
   = ["apt"; "install"] ++ elems (heap st) (SystemPackages g)).
Proof.
  intros Hne. split.
  - rewrite compileSystemPackages_reads.
    apply Nat.eqb_neq in Hne. now rewrite Hne.
  - intros Hw. rewrite <- fields_leading_blank.
    rewrite <- (string_cons_app " ").
    rewrite <- apt_install_listing, <- listing_app.
    apply fields_listing. rewrite forallb_app. now rewrite Hw.
Qed.

End Installers.

(** ** Plugin materialization, in general *)

Section PluginLayers.
Context {Plugin World : Type}.
Variable rt : Runtime Plugin World.

Implicit Types (g : Graph Plugin) (st : Proc World) (ps : list Plugin).

Lemma compileVSCode_loop_all_ok ps inputs st :
  downloads_ok rt ps (world st) = true ->
  compileVSCode_loop rt ps inputs st =
    (Val (Ok (inputs ++ map (extension rt) ps)),
     mkProc (heap st) (world_after rt ps (world st)) (diag st)).
Proof.
  revert inputs st. induction ps as [|p ps IH]; intros inputs st Hok.
  - cbn. rewrite app_nil_r. now destruct st.
  - cbn [downloads_ok] in Hok.
    destruct (vscode_DownloadOrCache rt p (world st)) as [[e|] w] eqn:Hp;
      cbn [fst snd] in Hok; [discriminate|].
    rewrite (compileVSCode_loop_step rt p ps inputs st w Hp).
    rewrite IH by exact Hok.
    cbn [world_after map heap world diag]. rewrite Hp. cbn [snd].
    now rewrite <- app_assoc.
Qed.

Lemma compileVSCode_loop_first_failure pre (p : Plugin) post inputs st e w :
  downloads_ok rt pre (world st) = true ->
  vscode_DownloadOrCache rt p (world_after rt pre (world st)) = (Some e, w) ->
  compileVSCode_loop rt (pre ++ p :: post) inputs st =
    (Val (Err e), mkProc (heap st) w (diag st)).
Proof.
  revert inputs st. induction pre as [|q pre IH]; intros inputs st Hok Hp.
  - cbn [app world_after] in *.
    now apply compileVSCode_loop_stops.
  - cbn [downloads_ok] in Hok. cbn [world_after] in Hp.
    destruct (vscode_DownloadOrCache rt q (world st)) as [[e'|] w'] eqn:Hq;
      cbn [fst snd] in Hok, Hp; [discriminate|].
    cbn [app].
    rewrite (compileVSCode_loop_step rt q (pre ++ p :: post) inputs st w' Hq).
    now rewrite (IH _ (mkProc (heap st) w' (diag st)) Hok Hp).
Qed.

(** X3. When every requested plugin is materialized, [compileVSCode]
    returns one layer: the merge of one isolated copy per plugin, in the
    order of the request, each from the plugin's cache path in the local
    cache directory to the extensions directory under the plugin's
    identifier.  The collaborator has been asked for each plugin once, in
    order; heap and diagnostics are untouched. *)
Theorem plugin_layer_of_all_plugins g st :
  VSCodePlugins g <> [] ->
  downloads_ok rt (VSCodePlugins g) (world st) = true ->
  compileVSCode rt g st =
    (Val (Ok (Some (Merge
       (map (fun p =>
               File Scratch
                 (Copy (Local (FlagCacheDir rt)) (vscode_PluginPath rt p)
                       ("/root/.vscode-server/extensions/"
                        +:+ plugin_String rt p) true))
            (VSCodePlugins g))))),
     mkProc (heap st) (world_after rt (VSCodePlugins g) (world st))
            (diag st)).
Proof.
  intros Hne Hok. unfold compileVSCode.
  destruct (VSCodePlugins g) as [|p ps] eqn:Hps; [contradiction|].
  cbn [length Nat.eqb]. unfold bind.
  now rewrite (compileVSCode_loop_all_ok (p :: ps) [] st Hok).
Qed.

(** X4. Wherever the first failing plugin stands in the request,
    [compileVSCode] stops at it: it returns the collaborator's error
    unchanged and no layer, and the world is the one the failed attempt
    left, so none of the plugins behind it was asked for. *)
Theorem plugin_materialization_fails_fast g st pre (p : Plugin) post e w :
  VSCodePlugins g = pre ++ p :: post ->
  downloads_ok rt pre (world st) = true ->
  vscode_DownloadOrCache rt p (world_after rt pre (world st)) = (Some e, w) ->
  compileVSCode rt g st = (Val (Err e), mkProc (heap st) w (diag st)).
Proof.
  intros Hps Hok Hp. unfold compileVSCode. rewrite Hps.
  destruct (length (pre ++ p :: post) =? 0) eqn:Hl.
  - apply Nat.eqb_eq in Hl. rewrite length_app in Hl. cbn in Hl. lia.
  - unfold bind.
    now rewrite (compileVSCode_loop_first_failure pre p post [] st e w Hok Hp).
Qed.

End PluginLayers.

(** ** The whole compilation *)

Section WholeCompile.
Context {Plugin World : Type}.
Variable rt : Runtime Plugin World.

Implicit Types (g : Graph Plugin) (st : Proc World) (base root : State).

Lemma compileUbuntuAPT_eq g root st :
  compileUbuntuAPT rt g root st =
    (Val (apt_stage rt g root),
     mkProc (heap st) (world st) (diag st ++ source_log g)).
Proof.
  unfold compileUbuntuAPT, apt_stage, source_log.
  destruct (UbuntuAPTSource g); [reflexivity|].
  rewrite app_nil_r. now destruct st.
Qed.

Lemma compilePyPIMirror_eq g root st :
  compilePyPIMirror rt g root st =
    (Val (mirror_stage rt g root),
     mkProc (heap st) (world st) (diag st ++ mirror_log g)).
Proof.
  unfold compilePyPIMirror, mirror_stage, mirror_log.
  destruct (PyPIMirror g); [reflexivity|].
  rewrite app_nil_r. now destruct st.
Qed.

(** [Compile] after base selection, stage by stage. *)
Lemma Compile_rest_eq g base st :
  let apt := apt_stage rt g base in
  let mir := mirror_stage rt g (builtin_stage (heap st) g apt) in
  let st4 := mkProc (heap st) (world st)
                    ((diag st ++ source_log g) ++ mirror_log g) in
  exists r w,
    compileVSCode rt g st4 = (Val r, mkProc (heap st) w (diag st4)) /\
    Compile_rest rt g base st =
      (Val (merged apt (user_stage (heap st) g apt)
                   (language_stage (heap st) g mir) (tool_stage rt) r),
       mkProc (heap st) w (diag st4)).
Proof.
  intros apt mir st4.
  destruct (compileVSCode_returns rt g st4) as (r & w & Hr & _).
  exists r, w. split; [exact Hr|].
  unfold Compile_rest, bind.
  rewrite compileUbuntuAPT_eq, compileBuiltinSystemPackages_reads.
  rewrite compilePyPIMirror_eq, compilePyPIPackages_reads.
  rewrite compileSystemPackages_reads.
  unfold copyMidiSSHServer, ret. cbn [heap world diag].
  fold st4. rewrite Hr.
  destruct r as [[v|]|e]; reflexivity.
Qed.

(** [Compile], stage by stage, once base selection has returned. *)
Lemma Compile_eq g st base g1 st1 :
  compileBase rt g st = (Val (base, g1), st1) ->
  let apt := apt_stage rt g base in
  let mir := mirror_stage rt g (builtin_stage (heap st1) g1 apt) in
  let st4 := mkProc (heap st1) (world st)
                    ((diag st ++ source_log g) ++ mirror_log g) in
  exists r w,
    compileVSCode rt g st4 = (Val r, mkProc (heap st1) w (diag st4)) /\
    Compile rt g st =
      (Val (merged apt (user_stage (heap st1) g apt)
                   (language_stage (heap st1) g mir) (tool_stage rt) r),
       mkProc (heap st1) w (diag st4)).
Proof.
  intros Hb apt mir st4.
  destruct (compileBase_fields rt g st base g1 st1 Hb) as (Hg1 & Hw & Hd).
  destruct (Compile_rest_eq g1 base st1) as (r & w & Hr & Hrest).
  assert (Hv : forall s, compileVSCode rt g1 s = compileVSCode rt g s).
  { intros s. rewrite Hg1. reflexivity. }
  rewrite Hv in Hr.
  assert (E1 : apt_stage rt g1 base = apt) by (rewrite Hg1; reflexivity).
  assert (E2 : forall x, mirror_stage rt g1 x = mirror_stage rt g x)
    by (intros x; rewrite Hg1; reflexivity).
  assert (E3 : forall h x, user_stage h g1 x = user_stage h g x)
    by (intros h x; rewrite Hg1; reflexivity).
  assert (E4 : forall h x, language_stage h g1 x = language_stage h g x)
    by (intros h x; rewrite Hg1; reflexivity).
  assert (E5 : source_log g1 = source_log g) by (rewrite Hg1; reflexivity).
  assert (E6 : mirror_log g1 = mirror_log g) by (rewrite Hg1; reflexivity).
  rewrite E1, E2, E3, E4, E5, E6, Hw, Hd in *.
  exists r, w. split; [exact Hr|].
  unfold Compile, bind. rewrite Hb. exact Hrest.
Qed.

(** *** What a compilation builds and leaves *)

Lemma compileBase_image g st base g1 st1 :
  compileBase rt g st = (Val (base, g1), st1) ->
  run_cmds base = [] /\ mkfiles base = [].
Proof.
  destruct (CUDA g) as [c|] eqn:H1, (CUDNN g) as [d|] eqn:H2.
  - rewrite (compileBase_both rt g st c d H1 H2). intros [= <- _ _].
    split; reflexivity.
  - rewrite compileBase_one_sided by (now rewrite H1, H2). discriminate.
  - rewrite compileBase_one_sided by (now rewrite H1, H2). discriminate.
  - rewrite (compileBase_none rt g st H1 H2). intros [= <- _ _].
    split; reflexivity.
Qed.

Lemma extensions_inert (ps : list Plugin) :
  flat_map run_cmds (map (extension rt) ps) = [] /\
  flat_map mkfiles (map (extension rt) ps) = [].
Proof. induction ps as [|p ps [IH1 IH2]]; split; cbn; auto. Qed.

Lemma plugin_layer_inert g st o st' :
  compileVSCode rt g st = (Val (Ok o), st') ->
  flat_map run_cmds (option_list o) = [] /\
  flat_map mkfiles (option_list o) = [].
Proof.
  intros H. apply compileVSCode_ok in H. subst o.
  destruct (length (VSCodePlugins g) =? 0); [split; reflexivity|].
  destruct (extensions_inert (VSCodePlugins g)) as (H1 & H2).
  cbn. rewrite H1, H2. split; reflexivity.
Qed.

Lemma run_cmds_merge (a u l t : State) (o : option State) :
  run_cmds (Merge ([a; Diff a u; Diff a l; t] ++ option_list o)) =
    run_cmds a ++ (run_cmds a ++ run_cmds u) ++ (run_cmds a ++ run_cmds l)
    ++ run_cmds t ++ flat_map run_cmds (option_list o).
Proof. destruct o; reflexivity. Qed.

Lemma mkfiles_merge (a u l t : State) (o : option State) :
  mkfiles (Merge ([a; Diff a u; Diff a l; t] ++ option_list o)) =
    mkfiles a ++ (mkfiles a ++ mkfiles u) ++ (mkfiles a ++ mkfiles l)
    ++ mkfiles t ++ flat_map mkfiles (option_list o).
Proof. destruct o; reflexivity. Qed.

Lemma stage_commands (h : Heap) g root :
  run_cmds (apt_stage rt g root) = run_cmds root /\
  run_cmds (mirror_stage rt g root) = run_cmds root /\
  run_cmds (builtin_stage h g root) =
    run_cmds root ++
    command_if (BuiltinSystemPackages g)
      (builtin_command (elems h (BuiltinSystemPackages g))) /\
  run_cmds (language_stage h g root) =
    run_cmds root ++
    command_if (PyPIPackages g)
      ("pip install" +:+ listing (elems h (PyPIPackages g))) /\
  run_cmds (user_stage h g root) =
    run_cmds root ++
    command_if (SystemPackages g)
      ("apt install" +:+ listing (elems h (SystemPackages g))).
Proof.
  unfold apt_stage, mirror_stage, builtin_stage, language_stage, user_stage,
    command_if.
  repeat split.
  - destruct (UbuntuAPTSource g); cbn; now rewrite ?app_nil_r.
  - destruct (PyPIMirror g); cbn; now rewrite ?app_nil_r.
  - destruct (len (BuiltinSystemPackages g) =? 0); cbn;
      now rewrite ?app_nil_r.
  - destruct (len (PyPIPackages g) =? 0); cbn; now rewrite ?app_nil_r.
  - destruct (len (SystemPackages g) =? 0); cbn; now rewrite ?app_nil_r.
Qed.

Lemma stage_files (h : Heap) g root :
  mkfiles (apt_stage rt g root) = mkfiles root ++ source_file rt g /\
  mkfiles (mirror_stage rt g root) = mkfiles root ++ mirror_file rt g /\
  mkfiles (builtin_stage h g root) = mkfiles root /\
  mkfiles (language_stage h g root) = mkfiles root /\
  mkfiles (user_stage h g root) = mkfiles root.
Proof.
  unfold apt_stage, mirror_stage, builtin_stage, language_stage, user_stage,
    source_file, mirror_file.
  repeat split.
  - destruct (UbuntuAPTSource g); cbn; now rewrite ?app_nil_r.
  - destruct (PyPIMirror g); cbn; now rewrite ?app_nil_r.
  - destruct (len (BuiltinSystemPackages g) =? 0); cbn;
      now rewrite ?app_nil_r.
  - destruct (len (PyPIPackages g) =? 0); cbn; now rewrite ?app_nil_r.
  - destruct (len (SystemPackages g) =? 0); cbn; now rewrite ?app_nil_r.
Qed.

(** X5. The commands of an assembled graph.  Whatever the descriptor, a
    returned graph runs at most three commands and never any other: the user
    system install, the built-in install and the language install, in this
    order, each present exactly when its package list is not empty (the
    built-in list as base selection left it). *)
Theorem assembled_graph_commands g st s st' :
  Compile rt g st = (Val (Ok s), st') ->
  exists base g1 st1,
    compileBase rt g st = (Val (base, g1), st1) /\
    run_cmds s =
      command_if (SystemPackages g)
        ("apt install" +:+ listing (elems (heap st1) (SystemPackages g))) ++
      command_if (BuiltinSystemPackages g1)
        (builtin_command (elems (heap st1) (BuiltinSystemPackages g1))) ++
      command_if (PyPIPackages g)
        ("pip install" +:+ listing (elems (heap st1) (PyPIPackages g))).
Proof.
  intros Hc.
  destruct (compileBase rt g st) as [[[base g1]|msg] st1] eqn:Hb.
  - exists base, g1, st1. split; [reflexivity|].
    destruct (Compile_eq g st base g1 st1 Hb) as (r & w & Hr & Hcomp).
    rewrite Hcomp in Hc. destruct r as [o|e]; [|discriminate].
    cbn [merged] in Hc. injection Hc as <- _.
    destruct (plugin_layer_inert _ _ _ _ Hr) as (Hp & _).
    destruct (compileBase_image g st base g1 st1 Hb) as (Hbase & _).
    etransitivity; [apply run_cmds_merge|]. rewrite Hp.
    change (run_cmds (tool_stage rt)) with (@nil string).
    destruct (stage_commands (heap st1) g base) as (Ea & _ & _ & El & Eu).
    destruct (stage_commands (heap st1) g (apt_stage rt g base))
      as (_ & _ & _ & _ & Eu').
    destruct (stage_commands (heap st1) g
                (builtin_stage (heap st1) g1 (apt_stage rt g base)))
      as (_ & Em & _ & _ & _).
    destruct (stage_commands (heap st1) g1 (apt_stage rt g base))
      as (_ & _ & Eb & _ & _).
    destruct (stage_commands (heap st1) g
                (mirror_stage rt g
                   (builtin_stage (heap st1) g1 (apt_stage rt g base))))
      as (_ & _ & _ & El' & _).
    rewrite Eu', El', Em, Eb, Ea, Hbase. cbn [app].
    now rewrite !app_nil_r.
  - unfold Compile, bind in Hc. rewrite Hb in Hc. discriminate.
Qed.

(** The files an assembled graph creates with [llb.Mkfile] are the two
    override files: the package source list with the literal override text,
    and the mirror configuration rendered from the mirror URL.  The source
    layer is part of the source stage, which the merge, both diffs and both
    diffed installs start from, so its file is met five times; the mirror
    file once. *)
Lemma assembled_graph_files g st s st' :
  Compile rt g st = (Val (Ok s), st') ->
  mkfiles s = concat (replicate 5 (source_file rt g)) ++ mirror_file rt g.
Proof.
  intros Hc.
  destruct (compileBase rt g st) as [[[base g1]|msg] st1] eqn:Hb.
  - destruct (Compile_eq g st base g1 st1 Hb) as (r & w & Hr & Hcomp).
    rewrite Hcomp in Hc. destruct r as [o|e]; [|discriminate].
    cbn [merged] in Hc. injection Hc as <- _.
    destruct (plugin_layer_inert _ _ _ _ Hr) as (_ & Hp).
    destruct (compileBase_image g st base g1 st1 Hb) as (_ & Hbase).
    etransitivity; [apply mkfiles_merge|]. rewrite Hp.
    change (mkfiles (tool_stage rt)) with (@nil (string * string)).
    destruct (stage_files (heap st1) g base) as (Ea & _).
    destruct (stage_files (heap st1) g (apt_stage rt g base))
      as (_ & _ & _ & _ & Eu).
    destruct (stage_files (heap st1) g1 (apt_stage rt g base))
      as (_ & _ & Eb & _ & _).
    destruct (stage_files (heap st1) g
                (builtin_stage (heap st1) g1 (apt_stage rt g base)))
      as (_ & Em & _ & _ & _).
    destruct (stage_files (heap st1) g
                (mirror_stage rt g
                   (builtin_stage (heap st1) g1 (apt_stage rt g base))))
      as (_ & _ & _ & El & _).
    rewrite Eu, El, Em, Eb, Ea, Hbase. cbn [app replicate concat].
    rewrite !app_nil_r. now rewrite <- !app_assoc.
  - unfold Compile, bind in Hc. rewrite Hb in Hc. discriminate.
Qed.

Lemma file_actions_merge (a u l t : State) (o : option State) :
  file_actions (Merge ([a; Diff a u; Diff a l; t] ++ option_list o)) =
    file_actions a ++ (file_actions a ++ file_actions u)
    ++ (file_actions a ++ file_actions l)
    ++ file_actions t ++ flat_map file_actions (option_list o).
Proof. destruct o; reflexivity. Qed.

Lemma stage_file_actions (h : Heap) g root :
  file_actions (apt_stage rt g root) =
    file_actions root ++ source_actions rt g /\
  file_actions (mirror_stage rt g root) =
    file_actions root ++ mirror_actions rt g /\
  file_actions (builtin_stage h g root) = file_actions root /\
  file_actions (language_stage h g root) = file_actions root /\
  file_actions (user_stage h g root) = file_actions root.
Proof.
  unfold apt_stage, mirror_stage, builtin_stage, language_stage, user_stage,
    source_actions, mirror_actions.
  repeat split.
  - destruct (UbuntuAPTSource g); cbn; now rewrite ?app_nil_r.
  - destruct (PyPIMirror g); cbn; now rewrite ?app_nil_r.
  - destruct (len (BuiltinSystemPackages g) =? 0); cbn;
      now rewrite ?app_nil_r.
  - destruct (len (PyPIPackages g) =? 0); cbn; now rewrite ?app_nil_r.
  - destruct (len (SystemPackages g) =? 0); cbn; now rewrite ?app_nil_r.
Qed.

Lemma extensions_file_actions (ps : list Plugin) :
  flat_map file_actions (map (extension rt) ps) = map (plugin_copy rt) ps.
Proof.
  induction ps as [|p ps IH]; [reflexivity|].
  cbn [map flat_map]. rewrite IH. reflexivity.
Qed.

Lemma plugin_layer_file_actions g st o st' :
  compileVSCode rt g st = (Val (Ok o), st') ->
  flat_map file_actions (option_list o) =
    map (plugin_copy rt) (VSCodePlugins g).
Proof.
  intros H. apply compileVSCode_ok in H. subst o.
  destruct (VSCodePlugins g) as [|p ps]; [reflexivity|].
  cbn [length Nat.eqb].
  change (flat_map file_actions
            (option_list (Some (Merge (map (extension rt) (p :: ps))))))
    with (flat_map file_actions (map (extension rt) (p :: ps)) ++ []).
  rewrite app_nil_r. apply extensions_file_actions.
Qed.

(** X6. The file actions of an assembled graph.  Beside its commands, a
    returned graph holds exactly these file actions, and in this order: for
    a package source override, the creation of the directory of the source
    list and of the source list with the literal override text, five times
    (once per place the source stage is used: the merge, both diffs and both
    diffed installs); for a mirror override, the creation of the directory
    of the mirror configuration and of the configuration rendered from the
    mirror URL, once; the copy of the tool binary out of the tool image to
    [/var/midi/bin/midi-ssh], always; and one copy per requested plugin, in
    request order, from its cache path in the local cache directory to the
    extensions directory under its identifier. *)
Theorem assembled_graph_file_actions g st s st' :
  Compile rt g st = (Val (Ok s), st') ->
  file_actions s =
    concat (replicate 5 (source_actions rt g)) ++ mirror_actions rt g ++
    [tool_copy rt] ++ map (plugin_copy rt) (VSCodePlugins g).
Proof.
  intros Hc.
  destruct (compileBase rt g st) as [[[base g1]|msg] st1] eqn:Hb.
  - destruct (Compile_eq g st base g1 st1 Hb) as (r & w & Hr & Hcomp).
    rewrite Hcomp in Hc. destruct r as [o|e]; [|discriminate].
    cbn [merged] in Hc. injection Hc as <- _.
    pose proof (plugin_layer_file_actions _ _ _ _ Hr) as Hp.
    destruct (compileBase_is_image rt g st base g1 st1 Hb) as (name & ->).
    etransitivity; [apply file_actions_merge|]. rewrite Hp.
    change (file_actions (tool_stage rt)) with [tool_copy rt].
    destruct (stage_file_actions (heap st1) g (Image name)) as (Ea & _).
    destruct (stage_file_actions (heap st1) g (apt_stage rt g (Image name)))
      as (_ & _ & _ & _ & Eu).
    destruct (stage_file_actions (heap st1) g1 (apt_stage rt g (Image name)))
      as (_ & _ & Eb & _ & _).
    destruct (stage_file_actions (heap st1) g
                (builtin_stage (heap st1) g1 (apt_stage rt g (Image name))))
      as (_ & Em & _ & _ & _).
    destruct (stage_file_actions (heap st1) g
                (mirror_stage rt g
                   (builtin_stage (heap st1) g1
                      (apt_stage rt g (Image name)))))
      as (_ & _ & _ & El & _).
    rewrite Eu, El, Em, Eb, Ea. cbn [file_actions app replicate concat].
    rewrite !app_nil_r. now rewrite <- !app_assoc.
  - unfold Compile, bind in Hc. rewrite Hb in Hc. discriminate.
Qed.

(** X7. A compilation succeeds whenever the GPU versions are both set or
    both absent and every requested plugin can be materialized.  It then
    returns the merge of the source stage, the diff of the user system
    install, the diff of the language install (on top of built-in install
    and mirror), the tool layer and, if plugins were requested, one layer
    with a copy per plugin; the collaborator has been asked for each plugin
    once, in order, and the diagnostics of the overrides are logged. *)
Theorem Compile_returns_graph g st :
  ~ one_sided (CUDA g) (CUDNN g) ->
  downloads_ok rt (VSCodePlugins g) (world st) = true ->
  exists base g1 st1,
    compileBase rt g st = (Val (base, g1), st1) /\
    let apt := apt_stage rt g base in
    let mir := mirror_stage rt g (builtin_stage (heap st1) g1 apt) in
    Compile rt g st =
      (Val (Ok (Merge
         ([apt;
           Diff apt (user_stage (heap st1) g apt);
           Diff apt (language_stage (heap st1) g mir);
           tool_stage rt] ++
          match VSCodePlugins g with
          | [] => []
          | _ => [Merge (map (extension rt) (VSCodePlugins g))]
          end))),
       mkProc (heap st1) (world_after rt (VSCodePlugins g) (world st))
              ((diag st ++ source_log g) ++ mirror_log g)).
Proof.
  intros Hgpu Hok.
  destruct (compileBase_returns rt g st Hgpu) as (base & g1 & st1 & Hb).
  exists base, g1, st1. split; [exact Hb|]. intros apt mir.
  destruct (Compile_eq g st base g1 st1 Hb) as (r & w & Hr & Hcomp).
  rewrite Hcomp. fold apt mir.
  destruct (VSCodePlugins g) as [|p ps] eqn:Hps.
  - unfold compileVSCode in Hr. rewrite Hps in Hr. cbn in Hr.
    injection Hr as <- <-. reflexivity.
  - unfold compileVSCode in Hr. rewrite Hps in Hr.
    cbn [length Nat.eqb] in Hr. unfold bind in Hr.
    rewrite (compileVSCode_loop_all_ok rt (p :: ps) []) in Hr by exact Hok.
    injection Hr as <- <-. reflexivity.
Qed.

(** X8. What a compilation leaves behind beside its result.  If it returns,
    with a graph or with an error, the diagnostics have grown by one entry
    per override that is set, the package source first and the mirror
    second, and by nothing else; without plugins the collaborator's world
    is untouched.  If it panics, the process state is exactly as before:
    the nil dereference comes before base selection appends anything. *)
Theorem Compile_side_effects g st :
  match Compile rt g st with
  | (Val _, st') =>
      diag st' = diag st ++ source_log g ++ mirror_log g /\
      (VSCodePlugins g = [] -> world st' = world st)
  | (Panic _, st') => st' = st
  end.
Proof.
  destruct (compileBase rt g st) as [[[base g1]|msg] st1] eqn:Hb.
  - destruct (Compile_eq g st base g1 st1 Hb) as (r & w & Hr & Hcomp).
    rewrite Hcomp. cbn [diag world]. split; [now rewrite <- app_assoc|].
    intros Hps. unfold compileVSCode in Hr. rewrite Hps in Hr. cbn in Hr.
    now injection Hr as _ <-.
  - unfold Compile, bind. rewrite Hb.
    pose proof (compileBase_panics rt g st msg st1 Hb) as Hone.
    rewrite (compileBase_one_sided rt g st Hone) in Hb.
    now injection Hb.
Qed.

End WholeCompile.

(** ** The caller's descriptor *)

Lemma append_at_other (growcap : nat -> nat -> nat) (s t : Slice)
    (xs : list string) (h : Heap) :
  ptr t < length h -> ptr t <> ptr s ->
  backing (snd (append_at growcap s xs h)) t = backing h t.
Proof.
  intros Ht Hne. unfold append_at.
  destruct (len s + length xs <=? cap s); cbn [snd].
  - unfold backing. now rewrite list_lookup_insert_ne by congruence.
  - now apply backing_app_l.
Qed.

Section Caller.
Context {Plugin World : Type}.
Variable rt : Runtime Plugin World.

Implicit Types (g : Graph Plugin) (st : Proc World).

(** X9. A compilation does not change the caller's descriptor.  [Compile]
    works on its own copy of the graph, so what base selection appends for
    a GPU image is invisible through the caller's built-in slice: after the
    compilation, however it ended, that slice reads exactly what it read
    before, all three package slices are still consistent with the heap, and
    a package slice that does not share the built-in slice's array reads the
    same as well. *)
Theorem caller_lists_survive g st :
  graph_ok (heap st) g ->
  graph_ok (heap (snd (Compile rt g st))) g /\
  elems (heap (snd (Compile rt g st))) (BuiltinSystemPackages g) =
    elems (heap st) (BuiltinSystemPackages g) /\
  (ptr (PyPIPackages g) <> ptr (BuiltinSystemPackages g) ->
   elems (heap (snd (Compile rt g st))) (PyPIPackages g) =
     elems (heap st) (PyPIPackages g)) /\
  (ptr (SystemPackages g) <> ptr (BuiltinSystemPackages g) ->
   elems (heap (snd (Compile rt g st))) (SystemPackages g) =
     elems (heap st) (SystemPackages g)).
Proof.
  intros Hok. pose proof Hok as (Hbu & Hpy & Hsy).
  destruct (Compile_leaves rt g st) as (-> & _).
  destruct (CUDA g) as [c|] eqn:H1, (CUDNN g) as [d|] eqn:H2.
  - rewrite (compileBase_both rt g st c d H1 H2). cbn [snd heap].
    destruct (append_at_spec (growcap rt) (BuiltinSystemPackages g)
                [Language g; Language g +:+ "-pip"] (heap st) Hbu)
      as (_ & _ & Hsame & Hkeep & _).
    split; [repeat split; apply Hkeep; assumption|].
    split; [exact Hsame|].
    split; intros Hne; unfold elems; rewrite append_at_other;
      try reflexivity; try assumption; [apply Hpy | apply Hsy].
  - rewrite compileBase_one_sided by (now rewrite H1, H2). cbn [snd].
    split; [exact Hok|]. split; [reflexivity|]. split; reflexivity.
  - rewrite compileBase_one_sided by (now rewrite H1, H2). cbn [snd].
    split; [exact Hok|]. split; [reflexivity|]. split; reflexivity.
  - rewrite (compileBase_none rt g st H1 H2). cbn [snd].
    split; [exact Hok|]. split; [reflexivity|]. split; reflexivity.
Qed.

(** X10. On a GPU descriptor the built-in installer always runs.  With both
    GPU versions set, base selection returns the GPU image and hands on a
    graph whose built-in installer, on any root, runs the update and install
    command over the original built-in packages followed by the language
    and the language with [-pip], original list empty or not. *)
Theorem gpu_builtin_install g st c d root :
  CUDA g = Some c -> CUDNN g = Some d ->
  slice_ok (heap st) (BuiltinSystemPackages g) ->
  exists g1 st1,
    compileBase rt g st = (Val (gpu_image c d (OS g), g1), st1) /\
    compileBuiltinSystemPackages g1 root st1 =
      (Val (Run root
              (builtin_command
                 (elems (heap st) (BuiltinSystemPackages g) ++
                  [Language g; Language g +:+ "-pip"]))
              [cache_mount "/var/cache/apt"; cache_mount "/var/lib/apt"]),
       st1).
Proof.
  intros Hc Hd Hok.
  rewrite (compileBase_both rt g st c d Hc Hd).
  eexists _, _. split; [reflexivity|].
  rewrite compileBuiltinSystemPackages_reads.
  destruct (append_at_spec (growcap rt) (BuiltinSystemPackages g)
              [Language g; Language g +:+ "-pip"] (heap st) Hok)
    as (He & Hl & _).
  cbn [BuiltinSystemPackages set_BuiltinSystemPackages heap].
  rewrite He, Hl. cbn [length].
  replace (len (BuiltinSystemPackages g) + 2 =? 0) with false
    by (symmetry; apply Nat.eqb_neq; lia).
  reflexivity.
Qed.

(** X11. [GPUEnabled] and base selection agree whenever base selection
    returns: the baseline interpreter image is selected exactly when
    [GPUEnabled] is false, and then neither the graph nor the process state
    is changed.  ([GPUEnabled] looks at the toolkit version alone; the
    descriptors on which the two disagree are those on which base selection
    panics.) *)
Theorem GPUEnabled_agrees_with_base g st base g1 st1 :
  compileBase rt g st = (Val (base, g1), st1) ->
  (GPUEnabled g = false <-> base = baseline) /\
  (GPUEnabled g = false -> g1 = g /\ st1 = st).
Proof.
  unfold GPUEnabled.
  destruct (CUDA g) as [c|] eqn:H1, (CUDNN g) as [d|] eqn:H2.
  - rewrite (compileBase_both rt g st c d H1 H2). intros [= <- _ _].
    split; [|discriminate]. split; [discriminate|].
    unfold gpu_image, baseline. intros H. cbn in H. inversion H.
  - rewrite compileBase_one_sided by (now rewrite H1, H2). discriminate.
  - rewrite compileBase_one_sided by (now rewrite H1, H2). discriminate.
  - rewrite (compileBase_none rt g st H1 H2). intros [= <- <- <-].
    repeat split.
Qed.

End Caller.

(** ** The default descriptor and the entry point *)

Section EntryPoint.
Context {Plugin World : Type}.
Variable rt : Runtime Plugin World.

Implicit Types (g : Graph Plugin) (st : Proc World).

(** X12. [NewGraph] only allocates.  In any process state it returns a
    descriptor without GPU versions, overrides or plugins, whose three
    package slices are consistent with the heap and read [curl],
    [openssh-client] for the built-in list and nothing for the other two.
    Every slice that was consistent before is still consistent and reads the
    same; world and diagnostics are untouched.  Compiled at once, the
    descriptor gives a graph of four merge inputs whose only command is the
    built-in install of [curl] and [openssh-client]. *)
Theorem NewGraph_fresh st :
  exists g st',
    NewGraph rt st = (Val g, st') /\
    graph_ok (heap st') g /\
    elems (heap st') (BuiltinSystemPackages g) = ["curl"; "openssh-client"] /\
    elems (heap st') (PyPIPackages g) = [] /\
    elems (heap st') (SystemPackages g) = [] /\
    GPUEnabled g = false /\
    (forall t, slice_ok (heap st) t ->
               slice_ok (heap st') t /\
               elems (heap st') t = elems (heap st) t) /\
    world st' = world st /\ diag st' = diag st /\
    exists s,
      Compile rt g st' = (Val (Ok s), st') /\
      length (merge_inputs s) = 4 /\
      run_cmds s = [builtin_command ["curl"; "openssh-client"]].
Proof.
  pose (A := ["curl"; "openssh-client"]).
  pose (h1 := heap st ++ [A]).
  pose (h2 := h1 ++ [[]]).
  pose (h3 := h2 ++ [[]]).
  pose (B := mkSlice (length (heap st)) 2 2).
  pose (P := mkSlice (length h1) 0 0).
  pose (S := mkSlice (length h2) 0 0).
  pose (g := mkGraph (Plugin := Plugin) (osDefault rt) (languageDefault rt)
               None None B P S [] None None []).
  pose (st' := mkProc h3 (world st) (diag st)).
  assert (L1 : length h1 = length (heap st) + 1)
    by (unfold h1; rewrite length_app; reflexivity).
  assert (L2 : length h2 = length (heap st) + 2)
    by (unfold h2; rewrite length_app, L1; cbn [length]; lia).
  assert (L3 : length h3 = length (heap st) + 3)
    by (unfold h3; rewrite length_app, L2; cbn [length]; lia).
  assert (HB : backing h3 B = A).
  { unfold h3. rewrite backing_app_l by (unfold B; cbn [ptr]; lia).
    unfold h2. rewrite backing_app_l by (unfold B; cbn [ptr]; lia).
    apply backing_fresh. }
  assert (HP : backing h3 P = []).
  { unfold h3. rewrite backing_app_l by (unfold P; cbn [ptr]; lia).
    apply backing_fresh. }
  assert (HS : backing h3 S = []) by apply backing_fresh.
  assert (Hbu : elems h3 B = A) by (unfold elems; now rewrite HB).
  assert (Hpy : elems h3 P = []) by (unfold elems; now rewrite HP).
  assert (Hsy : elems h3 S = []) by (unfold elems; now rewrite HS).
  exists g, st'. split; [reflexivity|].
  split.
  { unfold graph_ok, slice_ok.
    cbn [BuiltinSystemPackages PyPIPackages SystemPackages g heap st'].
    rewrite HB, HP, HS, L3. cbn [ptr len cap B P S A length].
    repeat split; lia. }
  split; [exact Hbu|]. split; [exact Hpy|]. split; [exact Hsy|].
  split; [reflexivity|].
  split.
  { intros t Ht. cbn [heap st']. unfold h3, h2, h1. split.
    - now repeat apply slice_ok_app_l.
    - destruct Ht as (Hp & _).
      rewrite !elems_app_l by (rewrite ?length_app; cbn [length]; lia).
      reflexivity. }
  split; [reflexivity|]. split; [reflexivity|].
  destruct (Compile_eq rt g st' baseline g st'
              (compileBase_none rt g st' eq_refl eq_refl))
    as (r & w & Hr & Hcomp).
  unfold compileVSCode in Hr. cbn in Hr. injection Hr as <- <-.
  cbn [heap world diag st'] in Hcomp.
  change (source_log g) with (@nil LogEntry) in Hcomp.
  change (mirror_log g) with (@nil LogEntry) in Hcomp.
  rewrite !app_nil_r in Hcomp.
  unfold builtin_stage in Hcomp. cbn [BuiltinSystemPackages g] in Hcomp.
  rewrite Hbu in Hcomp.
  eexists. split; [exact Hcomp|]. split; reflexivity.
Qed.

Lemma Compile_ctx_eq {Def : Type} (Marshal : State -> result Def) g st :
  snd (Compile_ctx rt Marshal g st) = snd (Compile rt g st) /\
  fst (Compile_ctx rt Marshal g st) =
    match fst (Compile rt g st) with
    | Val (Ok state) => Val (Marshal state)
    | Val (Err err) => Val (Err err)
    | Panic msg => Panic msg
    end.
Proof.
  unfold Compile_ctx, bind.
  destruct (Compile rt g st) as [[[s|e]|msg] st']; cbn [fst snd];
    try (split; reflexivity).
  destruct (Marshal s); split; reflexivity.
Qed.

(** X13. The entry point gives the same answer twice.  [Compile(ctx)]
    called again on the same default graph, in the process state its first
    call left, returns the same definition, the same error or the same
    panic, provided the collaborator's answers do not depend on earlier
    download attempts; and whatever [Marshal] answers, the process state the
    entry point leaves is the one [Graph.Compile] left. *)
Theorem Compile_ctx_twice {Def : Type} (Marshal : State -> result Def) g st :
  graph_ok (heap st) g ->
  stable_downloads rt ->
  snd (Compile_ctx rt Marshal g st) = snd (Compile rt g st) /\
  fst (Compile_ctx rt Marshal g (snd (Compile_ctx rt Marshal g st))) =
    fst (Compile_ctx rt Marshal g st).
Proof.
  intros Hok Hst.
  destruct (Compile_ctx_eq Marshal g st) as (Hs & Hf).
  split; [exact Hs|].
  destruct (Compile_ctx_eq Marshal g (snd (Compile_ctx rt Marshal g st)))
    as (_ & Hf2).
  rewrite Hf2, Hf, Hs.
  destruct (Compile_leaves rt g st) as (Hh & Hw).
  destruct (Compile_again rt g st (snd (Compile rt g st)) Hok Hh)
    as (_ & Hall).
  now rewrite (Hall Hst (Hw Hst)).
Qed.

(** Every error of the plugin loop is the collaborator's, from the first
    plugin it failed on. *)
Lemma compileVSCode_loop_error (ps : list Plugin) inputs st e st' :
  compileVSCode_loop rt ps inputs st = (Val (Err e), st') ->
  exists pre p post,
    ps = pre ++ p :: post /\
    downloads_ok rt pre (world st) = true /\
    vscode_DownloadOrCache rt p (world_after rt pre (world st))
      = (Some e, world st').
Proof.
  revert inputs st. induction ps as [|q ps IH]; intros inputs st.
  - cbn. discriminate.
  - cbn [compileVSCode_loop]. unfold bind. rewrite DownloadOrCache_eq.
    destruct (vscode_DownloadOrCache rt q (world st)) as [[e'|] w] eqn:Hq;
      cbn [fst snd].
    + intros [= <- <-]. exists [], q, ps. cbn. now rewrite Hq.
    + intros H. apply IH in H as (pre & p & post & -> & Hok & Hp).
      exists (q :: pre), p, post. cbn [app downloads_ok world_after].
      rewrite Hq. cbn [fst snd]. cbn [world] in Hok, Hp. auto.
Qed.

(** X15. The only error of a compilation is a failed plugin.  If [Compile]
    returns an error, then some requested plugin could not be materialized
    while all those before it could, the error is the collaborator's error
    for that plugin wrapped with the step context, and the world is the one
    that attempt left. *)
Theorem Compile_error_origin g st err st' :
  Compile rt g st = (Val (Err err), st') ->
  exists pre p post e,
    VSCodePlugins g = pre ++ p :: post /\
    downloads_ok rt pre (world st) = true /\
    vscode_DownloadOrCache rt p (world_after rt pre (world st))
      = (Some e, world st') /\
    err = Wrap e "failed to get vscode plugins".
Proof.
  intros Hc.
  destruct (compileBase rt g st) as [[[base g1]|msg] st1] eqn:Hb.
  - destruct (Compile_eq rt g st base g1 st1 Hb) as (r & w & Hr & Hcomp).
    rewrite Hcomp in Hc. destruct r as [o|e]; [discriminate|].
    cbn [merged] in Hc. injection Hc as <- <-.
    unfold compileVSCode in Hr.
    destruct (length (VSCodePlugins g) =? 0); [discriminate|].
    unfold bind in Hr.
    match type of Hr with
    | context [compileVSCode_loop rt ?ps ?i ?s] =>
        destruct (compileVSCode_loop rt ps i s) as [[[l|e']|m] s2] eqn:Hl
    end; try discriminate.
    injection Hr as <- <-.
    apply compileVSCode_loop_error in Hl
      as (pre & p & post & Hps & Hok & Hp).
    exists pre, p, post, e'. cbn [world] in *. auto.
  - unfold Compile, bind in Hc. rewrite Hb in Hc. discriminate.
Qed.

End EntryPoint.

(** ** The shell manager's outcomes *)

Section ManagerOutcomes.
Context {FS : Type}.
Variable rt : Shell.Runtime FS.

(** X14. What [DownloadOrCache] of the shell manager can do.  If it returns
    no error, either the framework directory existed and nothing changed, or
    the directory was absent and one clone was made and reported success.  If
    it returns an error, either it is the error of the directory check and
    nothing was cloned or changed, or the directory was absent and it is the
    error of the one clone made.  The clone is always the non-bare clone of
    the ohmyzsh repository into the framework directory. *)
Theorem DownloadOrCache_outcomes (st : Shell.Sys FS) :
  let check := Shell.fileutil_DirExists rt (Shell.OHMyZSHDir rt)
                 (Shell.fs st) in
  match Shell.DownloadOrCache rt st with
  | (None, st') =>
      (check = (true, None) /\ st' = st) \/
      (check = (false, None) /\
       Shell.git_PlainClone rt (framework_clone rt) (Shell.fs st)
         = (None, Shell.fs st') /\
       Shell.clones st' = Shell.clones st ++ [framework_clone rt])
  | (Some e, st') =>
      (snd check = Some e /\ st' = st) \/
      (check = (false, None) /\
       Shell.git_PlainClone rt (framework_clone rt) (Shell.fs st)
         = (Some e, Shell.fs st') /\
       Shell.clones st' = Shell.clones st ++ [framework_clone rt])
  end.
Proof.
  intros check. unfold Shell.DownloadOrCache. fold check.
  destruct check as [[|] [err|]] eqn:Hex.
  - left. split; reflexivity.
  - left. split; reflexivity.
  - left. split; reflexivity.
  - unfold Shell.PlainClone. fold (framework_clone rt).
    destruct (Shell.git_PlainClone rt (framework_clone rt) (Shell.fs st))
      as [[err|] fs1] eqn:Hc; right; repeat split.
Qed.

End ManagerOutcomes.

(** ** The further properties on concrete descriptors *)

Lemma language_install_command_witness :
  len (PyPIPackages Sample.graph) <> 0 /\
  fields ("pip install" +:+
          listing (elems (heap Sample.proc) (PyPIPackages Sample.graph)))
  = ["pip"; "install"; "numpy"].
Proof.
  assert (Hne : len (PyPIPackages Sample.graph) <> 0) by discriminate.
  split; [exact Hne|].
  exact (proj2 (language_install_command Sample.graph Scratch Sample.proc Hne)
               eq_refl).
Defined.

Lemma user_install_command_witness :
  len (SystemPackages Sample.graph) <> 0 /\
  fields ("apt install" +:+
          listing (elems (heap Sample.proc) (SystemPackages Sample.graph)))
  = ["apt"; "install"; "vim"].
Proof.
  assert (Hne : len (SystemPackages Sample.graph) <> 0) by discriminate.
  split; [exact Hne|].
  exact (proj2 (user_install_command Sample.graph Scratch Sample.proc Hne)
               eq_refl).
Defined.

Lemma plugin_layer_of_all_plugins_witness :
  downloads_ok Demo.rt ["golang.go-0.33.0"; "vscodevim.vim-1.0"] [] = true /\
  exists layer,
    compileVSCode Demo.rt
      (Demo.graph None None ["golang.go-0.33.0"; "vscodevim.vim-1.0"])
      Demo.proc
    = (Val (Ok (Some layer)),
       mkProc (heap Demo.proc) ["golang.go-0.33.0"; "vscodevim.vim-1.0"] []) /\
    length (merge_inputs layer) = 2.
Proof.
  split; [reflexivity|].
  eexists. split.
  - apply (plugin_layer_of_all_plugins Demo.rt
             (Demo.graph None None ["golang.go-0.33.0"; "vscodevim.vim-1.0"])
             Demo.proc); [discriminate | reflexivity].
  - reflexivity.
Defined.

Lemma plugin_materialization_fails_fast_witness :
  compileVSCode Demo.rt
    (Demo.graph None None
       ["golang.go-0.33.0"; Demo.broken; "vscodevim.vim-1.0"])
    Demo.proc
  = (Val (Err (ErrorString "connection refused")),
     mkProc (heap Demo.proc) ["golang.go-0.33.0"; Demo.broken] []).
Proof.
  apply (plugin_materialization_fails_fast Demo.rt
           (Demo.graph None None
              ["golang.go-0.33.0"; Demo.broken; "vscodevim.vim-1.0"])
           Demo.proc ["golang.go-0.33.0"] Demo.broken ["vscodevim.vim-1.0"]);
    reflexivity.
Defined.

(** The sample descriptor compiles to a graph. *)
Lemma sample_compiles :
  Compile Demo.rt Sample.graph Sample.proc
  = (Val (Ok (match fst (Compile Demo.rt Sample.graph Sample.proc) with
              | Val (Ok s) => s
              | _ => Scratch
              end)),
     snd (Compile Demo.rt Sample.graph Sample.proc)).
Proof. vm_compute. reflexivity. Defined.

Lemma assembled_graph_commands_witness :
  exists s st',
    Compile Demo.rt Sample.graph Sample.proc = (Val (Ok s), st') /\
    run_cmds s =
      ["apt install vim";
       builtin_command ["curl"; "openssh-client"];
       "pip install numpy"].
Proof.
  eexists _, _. split; [exact sample_compiles|].
  destruct (assembled_graph_commands Demo.rt Sample.graph Sample.proc _ _
              sample_compiles) as (base & g1 & st1 & Hb & Hcmds).
  rewrite Hcmds. injection Hb as _ <- <-. reflexivity.
Defined.

Lemma assembled_graph_files_witness :
  exists s st',
    Compile Demo.rt Sample.graph Sample.proc = (Val (Ok s), st') /\
    length (mkfiles s) = 6 /\
    forall f, In f (mkfiles s) ->
      f = ("/etc/apt/sources.list",
           "deb http://mirror.example/ubuntu focal main") \/
      f = ("/root/.config/pip/pip.conf",
           "[global]index-url=https://pypi.example/simple").
Proof.
  eexists _, _. split; [exact sample_compiles|].
  rewrite (assembled_graph_files Demo.rt Sample.graph Sample.proc _ _
             sample_compiles).
  split; [reflexivity|].
  intros f Hf. cbn in Hf. intuition (subst; auto).
Defined.

Lemma Compile_returns_graph_witness :
  downloads_ok Demo.rt ["golang.go-0.33.0"] [] = true /\
  exists s st',
    Compile Demo.rt (Demo.graph (Some "11.6") (Some "8") ["golang.go-0.33.0"])
      Demo.proc = (Val (Ok s), st') /\
    world st' = ["golang.go-0.33.0"].
Proof.
  split; [reflexivity|].
  destruct (Compile_returns_graph Demo.rt
              (Demo.graph (Some "11.6") (Some "8") ["golang.go-0.33.0"])
              Demo.proc (fun H : False => H) eq_refl)
    as (base & g1 & st1 & _ & Hc).
  eexists _, _. split; [exact Hc|]. reflexivity.
Defined.

Lemma caller_lists_survive_witness :
  graph_ok (heap Demo.proc) (Demo.graph (Some "11.6") (Some "8") []) /\
  elems (heap (snd (Compile Demo.rt (Demo.graph (Some "11.6") (Some "8") [])
                      Demo.proc)))
        (BuiltinSystemPackages (Demo.graph (Some "11.6") (Some "8") []))
  = ["curl"; "openssh-client"].
Proof.
  split; [apply demo_slices_ok|].
  exact (proj1 (proj2 (caller_lists_survive Demo.rt
                         (Demo.graph (Some "11.6") (Some "8") []) Demo.proc
                         (demo_slices_ok _ _ _)))).
Defined.

Lemma gpu_builtin_install_witness :
  slice_ok (heap Demo.proc)
    (BuiltinSystemPackages (Demo.graph (Some "11.6") (Some "8") [])) /\
  exists g1 st1,
    compileBase Demo.rt (Demo.graph (Some "11.6") (Some "8") []) Demo.proc
      = (Val (gpu_image "11.6" "8" "ubuntu20.04", g1), st1) /\
    compileBuiltinSystemPackages g1 Scratch st1
      = (Val (Run Scratch
                (builtin_command
                   ["curl"; "openssh-client"; "python"; "python-pip"])
                [cache_mount "/var/cache/apt"; cache_mount "/var/lib/apt"]),
         st1).
Proof.
  assert (Hok : slice_ok (heap Demo.proc)
                  (BuiltinSystemPackages
                     (Demo.graph (Some "11.6") (Some "8") [])))
    by (repeat split; cbn; lia).
  split; [exact Hok|].
  exact (gpu_builtin_install Demo.rt
           (Demo.graph (Some "11.6") (Some "8") []) Demo.proc
           "11.6" "8" Scratch eq_refl eq_refl Hok).
Defined.

Lemma GPUEnabled_agrees_with_base_witness :
  compileBase Demo.rt (Demo.graph None None []) Demo.proc
    = (Val (baseline, Demo.graph None None []), Demo.proc) /\
  (GPUEnabled (Demo.graph None None []) = false <-> baseline = baseline).
Proof.
  split; [reflexivity|].
  exact (proj1 (GPUEnabled_agrees_with_base Demo.rt
                  (Demo.graph None None []) Demo.proc baseline
                  (Demo.graph None None []) Demo.proc eq_refl)).
Defined.

Lemma Compile_ctx_twice_witness :
  graph_ok (heap Demo.proc)
    (Demo.graph (Some "11.6") (Some "8") ["golang.go-0.33.0"]) /\
  stable_downloads Demo.rt /\
  fst (Compile_ctx Demo.rt Sample.marshal
         (Demo.graph (Some "11.6") (Some "8") ["golang.go-0.33.0"])
         (snd (Compile_ctx Demo.rt Sample.marshal
                 (Demo.graph (Some "11.6") (Some "8") ["golang.go-0.33.0"])
                 Demo.proc)))
  = fst (Compile_ctx Demo.rt Sample.marshal
           (Demo.graph (Some "11.6") (Some "8") ["golang.go-0.33.0"])
           Demo.proc).
Proof.
  split; [apply demo_slices_ok|]. split; [apply demo_stable_downloads|].
  exact (proj2 (Compile_ctx_twice Demo.rt Sample.marshal
                  (Demo.graph (Some "11.6") (Some "8") ["golang.go-0.33.0"])
                  Demo.proc (demo_slices_ok _ _ _) demo_stable_downloads)).
Defined.

Lemma Compile_error_origin_witness :
  exists err st' pre p post e,
    Compile Demo.rt
      (Demo.graph None None
         ["golang.go-0.33.0"; Demo.broken; "vscodevim.vim-1.0"])
      Demo.proc = (Val (Err err), st') /\
    ["golang.go-0.33.0"; Demo.broken; "vscodevim.vim-1.0"]
      = pre ++ p :: post /\
    err = Wrap e "failed to get vscode plugins".
Proof.
  pose (c := Compile Demo.rt
               (Demo.graph None None
                  ["golang.go-0.33.0"; Demo.broken; "vscodevim.vim-1.0"])
               Demo.proc).
  assert (H : Compile Demo.rt
                (Demo.graph None None
                   ["golang.go-0.33.0"; Demo.broken; "vscodevim.vim-1.0"])
                Demo.proc
              = (Val (Err (match fst c with
                           | Val (Err e) => e
                           | _ => ErrorString EmptyString
                           end)), snd c))
    by (vm_compute; reflexivity).
  destruct (Compile_error_origin Demo.rt _ _ _ _ H)
    as (pre & p & post & e & Hps & _ & _ & Herr).
  eexists _, _, pre, p, post, e. split; [exact H|]. split; assumption.
Defined.

(** The sample descriptor, with a plugin. *)
Lemma sample_with_plugin_compiles :
  Compile Demo.rt
    (mkGraph "ubuntu20.04" "python" None None
             (mkSlice 0 2 2) (mkSlice 1 1 1) (mkSlice 2 1 1)
             ["golang.go-0.33.0"]
             (Some "deb http://mirror.example/ubuntu focal main")
             (Some "https://pypi.example/simple") [])
    Sample.proc
  = (Val (Ok (match fst (Compile Demo.rt
                           (mkGraph "ubuntu20.04" "python" None None
                              (mkSlice 0 2 2) (mkSlice 1 1 1) (mkSlice 2 1 1)
                              ["golang.go-0.33.0"]
                              (Some "deb http://mirror.example/ubuntu focal main")
                              (Some "https://pypi.example/simple") [])
                           Sample.proc) with
              | Val (Ok s) => s
              | _ => Scratch
              end)),
     snd (Compile Demo.rt
            (mkGraph "ubuntu20.04" "python" None None
               (mkSlice 0 2 2) (mkSlice 1 1 1) (mkSlice 2 1 1)
               ["golang.go-0.33.0"]
               (Some "deb http://mirror.example/ubuntu focal main")
               (Some "https://pypi.example/simple") [])
            Sample.proc)).
Proof. vm_compute. reflexivity. Defined.

Lemma assembled_graph_file_actions_witness :
  exists s st',
    Compile Demo.rt
      (mkGraph "ubuntu20.04" "python" None None
               (mkSlice 0 2 2) (mkSlice 1 1 1) (mkSlice 2 1 1)
               ["golang.go-0.33.0"]
               (Some "deb http://mirror.example/ubuntu focal main")
               (Some "https://pypi.example/simple") [])
      Sample.proc = (Val (Ok s), st') /\
    length (file_actions s) = 14 /\
    In (Copy (Image "tensorchord/midi-ssh:latest") "usr/bin/midi-ssh"
             "/var/midi/bin/midi-ssh" true) (file_actions s) /\
    In (Copy (Local "cache-dir") "golang.go-0.33.0/extension"
             "/root/.vscode-server/extensions/golang.go-0.33.0" true)
       (file_actions s).
Proof.
  eexists _, _. split; [exact sample_with_plugin_compiles|].
  rewrite (assembled_graph_file_actions Demo.rt _ Sample.proc _ _
             sample_with_plugin_compiles).
  split; [reflexivity|]. split; cbn; tauto.
Defined.
